(** * Pomodoro timer: the phase state machine of [app.js]

    A shallow embedding of the controller in [src/app.js] (the [state]
    object, the settings and history stores and the timer controls) and
    the properties of it that the specification states.

    Conventions of the embedding.
    - A JavaScript number is an exact rational extended with [NaN] and the
      two infinities.  IEEE rounding and the sign of zero are not modelled.
    - A JavaScript string is a [string] of bytes.
    - A JavaScript object used as a record is a [gmap string value].
    - The mutable globals [state], the two DOM texts that mirror it and the
      browser (interval timers, [localStorage]) are threaded explicitly as
      one [App] record.
    - Clock readings and other values the browser hands to a handler are
      the fields of an environment record passed to that handler.
    - DOM output that the controller never reads back (progress ring, time
      text, tab highlighting, bottom cards, the beep) is left out of the
      [App] record.  The section "The rest of the page" gives the time
      text, the ring, the theme, the bottom cards and the history list as
      functions of the state, and the handlers with their calls of
      [updateBottom], which can raise a [TypeError], in place. *)

From Stdlib Require Import ZArith QArith Qabs Qround Lia Lqa Ascii String.
From stdpp Require Import base gmap strings list pretty.

Set Warnings "-register-all".
#[local] Open Scope Z_scope.

(** ** JavaScript numbers *)

Module JS.

Inductive number : Type :=
| NaN
| NegInf
| Fin (q : Q)
| PosInf.

Definition of_Z (z : Z) : number := Fin (inject_Z z).

Definition Qpos_b (q : Q) : bool := negb (Qle_bool q 0).
Definition Qneg_b (q : Q) : bool := negb (Qle_bool 0 q).

Definition neg (a : number) : number :=
  match a with
  | NaN => NaN
  | NegInf => PosInf
  | Fin q => Fin (- q)
  | PosInf => NegInf
  end.

(** [a - b] *)
Definition sub (a b : number) : number :=
  match a, b with
  | NaN, _ | _, NaN => NaN
  | PosInf, PosInf | NegInf, NegInf => NaN
  | PosInf, _ | _, NegInf => PosInf
  | NegInf, _ | _, PosInf => NegInf
  | Fin x, Fin y => Fin (x - y)
  end.

Definition inf_times (positive_inf : bool) (q : Q) : number :=
  if Qpos_b q then (if positive_inf then PosInf else NegInf)
  else if Qneg_b q then (if positive_inf then NegInf else PosInf)
  else NaN.

(** [a * b] *)
Definition mul (a b : number) : number :=
  match a, b with
  | NaN, _ | _, NaN => NaN
  | PosInf, PosInf | NegInf, NegInf => PosInf
  | PosInf, NegInf | NegInf, PosInf => NegInf
  | PosInf, Fin q | Fin q, PosInf => inf_times true q
  | NegInf, Fin q | Fin q, NegInf => inf_times false q
  | Fin x, Fin y => Fin (x * y)
  end.

(** [a <= b]: false as soon as one side is [NaN]. *)
Definition le (a b : number) : bool :=
  match a, b with
  | NaN, _ | _, NaN => false
  | NegInf, _ | _, PosInf => true
  | _, NegInf | PosInf, _ => false
  | Fin x, Fin y => Qle_bool x y
  end.

(** [Math.min(a, b)] and [Math.max(a, b)]: [NaN] if either argument is. *)
Definition min (a b : number) : number :=
  match a, b with
  | NaN, _ | _, NaN => NaN
  | NegInf, _ | _, NegInf => NegInf
  | PosInf, x | x, PosInf => x
  | Fin x, Fin y => if Qle_bool x y then a else b
  end.

Definition max (a b : number) : number :=
  match a, b with
  | NaN, _ | _, NaN => NaN
  | PosInf, _ | _, PosInf => PosInf
  | NegInf, x | x, NegInf => x
  | Fin x, Fin y => if Qle_bool x y then b else a
  end.

(** ** Strings and numbers

    [String(n)] of an integer, [padStart] with a one-character filler and
    the conversion [StringToNumber] of ECMA-262 (white space trimmed, the
    empty text is [0], a decimal literal with optional fraction and
    exponent, [Infinity], and the [0x], [0o], [0b] integer literals).  Only
    the ASCII white space characters are recognised. *)

Definition String_of_Z (z : Z) : string := pretty z.

Definition padStart (n : nat) (fill : ascii) (s : string) : string :=
  String.app (string_of_list_ascii (repeat fill (n - String.length s))) s.

Definition code (a : ascii) : Z := Z.of_N (N_of_ascii a).

Definition is_white (a : ascii) : bool :=
  let c := code a in ((9 <=? c) && (c <=? 13)) || (c =? 32).

Fixpoint drop_white (s : string) : string :=
  match s with
  | String a r => if is_white a then drop_white r else s
  | EmptyString => s
  end.

Definition trim (s : string) : string :=
  String.rev (drop_white (String.rev (drop_white s))).

Definition digit (base : Z) (a : ascii) : option Z :=
  let c := code a in
  let d := if (48 <=? c) && (c <=? 57) then c - 48
           else if (97 <=? c) && (c <=? 102) then c - 87
           else if (65 <=? c) && (c <=? 70) then c - 55
           else base in
  if d <? base then Some d else None.

(** The longest prefix of digits: its value, its length, and the rest. *)
Fixpoint digits (base : Z) (s : string) (acc : Z) (n : nat) : Z * nat * string :=
  match s with
  | String a r =>
      match digit base a with
      | Some d => digits base r (acc * base + d) (S n)
      | None => (acc, n, s)
      end
  | EmptyString => (acc, n, s)
  end.

Definition pow10 (e : Z) : Q :=
  if 0 <=? e then inject_Z (10 ^ e) else 1 # Z.to_pos (10 ^ (- e)).

Definition is_letter (lower : ascii) (a : ascii) : bool :=
  (code a =? code lower) || (code a =? code lower - 32).

Definition exponent_part (s : string) : option Z :=
  match s with
  | EmptyString => Some 0
  | String a r =>
      if is_letter "e" a then
        let '(sg, r') := match r with
                         | String "+" t => (1, t)
                         | String "-" t => (-1, t)
                         | _ => (1, r)
                         end in
        match digits 10 r' 0 0 with
        | (v, S _, EmptyString) => Some (sg * v)
        | _ => None
        end
      else None
  end.

Definition unsigned_decimal (s : string) : option Q :=
  let '(ip, ni, r1) := digits 10 s 0 0 in
  let '(fp, nf, r2) := match r1 with
                       | String "." t => digits 10 t 0 0
                       | _ => (0, 0%nat, r1)
                       end in
  if (ni + nf =? 0)%nat then None
  else match exponent_part r2 with
       | Some e => Some (inject_Z (ip * 10 ^ Z.of_nat nf + fp) * pow10 (e - Z.of_nat nf))%Q
       | None => None
       end.

Definition str_decimal (s : string) : number :=
  let '(negative, r) := match s with
                        | String "+" t => (false, t)
                        | String "-" t => (true, t)
                        | _ => (false, s)
                        end in
  let u := if String.eqb r "Infinity" then PosInf
           else match unsigned_decimal r with
                | Some q => Fin q
                | None => NaN
                end in
  if negative then neg u else u.

Definition radix_literal (s : string) : option number :=
  match s with
  | String "0" (String c r) =>
      let base := if is_letter "x" c then 16
                  else if is_letter "o" c then 8
                  else if is_letter "b" c then 2 else 0 in
      if base =? 0 then None
      else match digits base r 0 0 with
           | (v, S _, EmptyString) => Some (of_Z v)
           | _ => Some NaN
           end
  | _ => None
  end.

Definition StringToNumber (s : string) : number :=
  let t := trim s in
  if String.eqb t "" then Fin 0
  else match radix_literal t with
       | Some n => n
       | None => str_decimal t
       end.

(** ** Dates

    A time value is a number of milliseconds since the epoch.
    [iso_of_ms] is [Date.prototype.toISOString] on a valid time value;
    [Date_toISOString n] is [new Date(n).toISOString()], which raises a
    [RangeError] (here [None]) when [n] is not a valid time value. *)

Definition civil_from_days (z : Z) : Z * Z * Z :=
  let z := z + 719468 in
  let era := z / 146097 in
  let doe := z - era * 146097 in
  let yoe := (doe - doe / 1460 + doe / 36524 - doe / 146096) / 365 in
  let doy := doe - (365 * yoe + yoe / 4 - yoe / 100) in
  let mp := (5 * doy + 2) / 153 in
  let d := doy - (153 * mp + 2) / 5 + 1 in
  let m := if mp <? 10 then mp + 3 else mp - 9 in
  let y := yoe + era * 400 + (if m <=? 2 then 1 else 0) in
  (y, m, d).

Definition pad0 (n : nat) (z : Z) : string := padStart n "0" (String_of_Z z).

Definition iso_of_ms (t : Z) : string :=
  let ms := t mod 86400000 in
  let '(y, m, d) := civil_from_days (t / 86400000) in
  let year := if (0 <=? y) && (y <=? 9999) then pad0 4 y
              else String.app (if y <? 0 then "-" else "+") (pad0 6 (Z.abs y)) in
  String.concat "" [ year; "-"; pad0 2 m; "-"; pad0 2 d; "T";
                     pad0 2 (ms / 3600000); ":"; pad0 2 (ms / 60000 mod 60); ":";
                     pad0 2 (ms / 1000 mod 60); "."; pad0 3 (ms mod 1000); "Z" ].

Definition TimeClip (n : number) : option Z :=
  match n with
  | Fin q =>
      if Qle_bool (Qabs q) (inject_Z 8640000000000000)
      then Some (Z.quot (Qnum q) (Z.pos (Qden q)))
      else None
  | _ => None
  end.

Definition Date_toISOString (n : number) : option string :=
  iso_of_ms <$> TimeClip n.

(** ** Values *)

Inductive value : Type :=
| VUndefined
| VNull
| VBool (b : bool)
| VNum (n : number)
| VStr (s : string)
| VArr (l : list value)
| VObj (m : gmap string value).

(** Reading a property: [undefined] when the object does not have it. *)
Definition get (o : gmap string value) (k : string) : value :=
  default VUndefined (o !! k).

(** [ToNumber].  An array goes through its text, the elements joined with
    commas, so only the empty and the one-element arrays can be numbers;
    any other object has the text [[object Object]]. *)
Fixpoint ToNumber (v : value) : number :=
  match v with
  | VUndefined => NaN
  | VNull => Fin 0
  | VBool b => if b then Fin 1 else Fin 0
  | VNum n => n
  | VStr s => StringToNumber s
  | VObj _ => NaN
  | VArr [] => Fin 0
  | VArr [x] =>
      match x with
      | VUndefined | VNull => Fin 0
      | VBool _ | VObj _ => NaN
      | _ => ToNumber x
      end
  | VArr _ => NaN
  end.

Definition ToBoolean (v : value) : bool :=
  match v with
  | VUndefined | VNull => false
  | VBool b => b
  | VNum (Fin q) => negb (Qeq_bool q 0)
  | VNum NaN => false
  | VNum _ => true
  | VStr s => negb (String.eqb s "")
  | VArr _ | VObj _ => true
  end.

(** What [JSON.parse] reads back from the text [JSON.stringify] writes:
    a number that is not finite becomes [null], an [undefined] element of
    an array becomes [null], an [undefined] property is dropped. *)
Fixpoint json_image (v : value) : value :=
  match v with
  | VNum (Fin q) => v
  | VNum _ => VNull
  | VArr l => VArr (map (λ x, match x with
                              | VUndefined => VNull
                              | _ => json_image x
                              end) l)
  | VObj m => VObj (omap (λ x, match x with
                               | VUndefined => None
                               | _ => Some (json_image x)
                               end) m)
  | _ => v
  end.

End JS.

Import JS.
#[local] Open Scope string_scope.

(** ** The stores

    The text kept under a [localStorage] key is described by what
    [JSON.parse] makes of it: [Json v] is a text that parses to [v],
    [Garbled raw] is a text that does not parse, the empty text among
    them.  [setItem] is taken to succeed. *)

Inductive text : Type :=
| Garbled (raw : string)
| Json (v : value).

(** [!raw] for a text read from the store. *)
Definition is_empty_text (t : text) : bool :=
  match t with
  | Garbled raw => String.eqb raw ""
  | Json _ => false
  end.

(** [JSON.parse]; [None] stands for the [SyntaxError] it raises. *)
Definition JSON_parse (t : text) : option value :=
  match t with
  | Garbled _ => None
  | Json v => Some v
  end.

Definition JSON_stringify (v : value) : text := Json (json_image v).

(** The own enumerable properties that an object spread [{...v}] copies. *)
Definition spread (v : value) : gmap string value :=
  match v with
  | VObj m => m
  | VArr l => list_to_map (imap (λ i x, (String_of_Z (Z.of_nat i), x)) l)
  | VStr s => list_to_map (imap (λ i c, (String_of_Z (Z.of_nat i), VStr (String c "")))
                                (list_ascii_of_string s))
  | _ => ∅
  end.

Definition SETTINGS_KEY : string := "pomofocus_settings_v2".
Definition HISTORY_KEY : string := "pomofocus_history_v2".

Definition defaults : gmap string value :=
  list_to_map [ ("theme", VStr "dark");
                ("focusMin", VNum (Fin 25));
                ("shortMin", VNum (Fin 5));
                ("longMin", VNum (Fin 15));
                ("goalSessions", VNum (Fin 8));
                ("autoStart", VBool false) ].

Definition loadSettings (ls : gmap string text) : gmap string value :=
  match ls !! SETTINGS_KEY with
  | None => defaults
  | Some raw =>
      if is_empty_text raw then defaults
      else match JSON_parse raw with
           | Some parsed => spread parsed ∪ defaults
           | None => defaults
           end
  end.

Definition loadHistory (ls : gmap string text) : list value :=
  match ls !! HISTORY_KEY with
  | None => []
  | Some raw =>
      if is_empty_text raw then []
      else match JSON_parse raw with
           | Some (VArr arr) => arr
           | _ => []
           end
  end.

(** ** The state *)

Inductive Mode : Type := focus | short | long.

#[global] Instance Mode_eq_dec : EqDecision Mode.
Proof. solve_decision. Defined.

(** The text [state.mode] holds. *)
Definition mode_name (m : Mode) : string :=
  match m with
  | focus => "focus"
  | short => "short"
  | long => "long"
  end.

Record State : Type := mkState {
  mode : Mode;
  running : bool;
  totalSec : number;
  remainingSec : number;
  lastPerf : option Q;
  interval : option positive;
  phaseStartISO : option string;
  settings : gmap string value;
  history : list value;
}.

(** The two element texts that mirror the state. *)
Record Elements : Type := mkElements {
  playIcon : string;
  phaseText : string;
}.

(** The browser: the interval timers that call [tick], the next timer
    handle, and [localStorage]. *)
Record Browser : Type := mkBrowser {
  intervals : gset positive;
  next_handle : positive;
  localStorage : gmap string text;
}.

Record App : Type := mkApp {
  state : State;
  el : Elements;
  browser : Browser;
}.

Definition set_mode (m : Mode) (s : State) : State :=
  mkState m (running s) (totalSec s) (remainingSec s) (lastPerf s) (interval s)
          (phaseStartISO s) (settings s) (history s).
Definition set_running (b : bool) (s : State) : State :=
  mkState (mode s) b (totalSec s) (remainingSec s) (lastPerf s) (interval s)
          (phaseStartISO s) (settings s) (history s).
Definition set_totalSec (n : number) (s : State) : State :=
  mkState (mode s) (running s) n (remainingSec s) (lastPerf s) (interval s)
          (phaseStartISO s) (settings s) (history s).
Definition set_remainingSec (n : number) (s : State) : State :=
  mkState (mode s) (running s) (totalSec s) n (lastPerf s) (interval s)
          (phaseStartISO s) (settings s) (history s).
Definition set_lastPerf (p : option Q) (s : State) : State :=
  mkState (mode s) (running s) (totalSec s) (remainingSec s) p (interval s)
          (phaseStartISO s) (settings s) (history s).
Definition set_interval (h : option positive) (s : State) : State :=
  mkState (mode s) (running s) (totalSec s) (remainingSec s) (lastPerf s) h
          (phaseStartISO s) (settings s) (history s).
Definition set_phaseStartISO (t : option string) (s : State) : State :=
  mkState (mode s) (running s) (totalSec s) (remainingSec s) (lastPerf s) (interval s)
          t (settings s) (history s).
Definition set_settings (o : gmap string value) (s : State) : State :=
  mkState (mode s) (running s) (totalSec s) (remainingSec s) (lastPerf s) (interval s)
          (phaseStartISO s) o (history s).
Definition set_history (h : list value) (s : State) : State :=
  mkState (mode s) (running s) (totalSec s) (remainingSec s) (lastPerf s) (interval s)
          (phaseStartISO s) (settings s) h.

Definition on_state (f : State → State) (a : App) : App :=
  mkApp (f (state a)) (el a) (browser a).
Definition set_playIcon (t : string) (a : App) : App :=
  mkApp (state a) (mkElements t (phaseText (el a))) (browser a).
Definition set_phaseText (t : string) (a : App) : App :=
  mkApp (state a) (mkElements (playIcon (el a)) t) (browser a).

(** [setInterval(tick, 250)]: a fresh handle, now scheduled. *)
Definition setInterval (a : App) : positive * App :=
  let b := browser a in
  (next_handle b,
   mkApp (state a) (el a)
         (mkBrowser ({[ next_handle b ]} ∪ intervals b) (Pos.succ (next_handle b))
                    (localStorage b))).

Definition clearInterval (h : positive) (a : App) : App :=
  let b := browser a in
  mkApp (state a) (el a) (mkBrowser (intervals b ∖ {[ h ]}) (next_handle b) (localStorage b)).

Definition setItem (k : string) (t : text) (a : App) : App :=
  let b := browser a in
  mkApp (state a) (el a) (mkBrowser (intervals b) (next_handle b) (<[k := t]> (localStorage b))).

Definition removeItem (k : string) (a : App) : App :=
  let b := browser a in
  mkApp (state a) (el a) (mkBrowser (intervals b) (next_handle b) (delete k (localStorage b))).

Definition saveSettings (a : App) : App :=
  setItem SETTINGS_KEY (JSON_stringify (VObj (settings (state a)))) a.

Definition saveHistory (a : App) : App :=
  setItem HISTORY_KEY (JSON_stringify (VArr (history (state a)))) a.

Definition clearAll (a : App) : App :=
  removeItem HISTORY_KEY (removeItem SETTINGS_KEY a).

(** ** Mode durations *)

Definition modeToMinutes (a : App) (m : Mode) : value :=
  match m with
  | focus => get (settings (state a)) "focusMin"
  | short => get (settings (state a)) "shortMin"
  | long => get (settings (state a)) "longMin"
  end.

Definition modeLabel (m : Mode) : string :=
  match m with
  | focus => "FOCUS"
  | short => "SHORT BREAK"
  | long => "LONG BREAK"
  end.

(** ** Timer controls *)

Definition pause (a : App) : App :=
  let a := on_state (set_running false) a in
  let a := set_playIcon "▶" a in
  match interval (state a) with
  | Some h => on_state (set_interval None) (clearInterval h a)
  | None => a
  end.

(** [!state.phaseStartISO] is false exactly for a non-empty text. *)
Definition phase_started (s : State) : option string :=
  match phaseStartISO s with
  | Some t => if String.eqb t "" then None else Some t
  | None => None
  end.

(** [date] is the reading of [new Date()]. *)
Definition start (date : Z) (a : App) : App :=
  if running (state a) then a
  else
    let a := on_state (set_running true) a in
    let a := set_playIcon "❚❚" a in
    let a := match phase_started (state a) with
             | None => on_state (set_phaseStartISO (Some (iso_of_ms date))) a
             | Some _ => a
             end in
    match interval (state a) with
    | None => let '(h, a) := setInterval a in on_state (set_interval (Some h)) a
    | Some _ => a
    end.

Definition resetTimer (keepMode : bool) (a : App) : App :=
  let a := pause a in
  let a := on_state (set_lastPerf None) a in
  let a := on_state (set_phaseStartISO None) a in
  let a := if keepMode then a else on_state (set_mode focus) a in
  let a := on_state (set_totalSec (mul (ToNumber (modeToMinutes a (mode (state a)))) (Fin 60))) a in
  let a := on_state (set_remainingSec (totalSec (state a))) a in
  set_phaseText (modeLabel (mode (state a))) a.

Definition setMode (m : Mode) (a : App) : App :=
  let a := on_state (set_mode m) a in
  if running (state a) then set_phaseText (modeLabel m) a
  else resetTimer true a.

(** ** The tick *)

(** The local calendar date of a [new Date()]. *)
Record LocalDate : Type := mkLocalDate {
  getFullYear : Z;
  getMonth : Z;
  getDate : Z;
}.

Definition todayKey (d : LocalDate) : string :=
  String.concat "" [ String_of_Z (getFullYear d); "-";
                     padStart 2 "0" (String_of_Z (getMonth d + 1)); "-";
                     padStart 2 "0" (String_of_Z (getDate d)) ].

(** What one call of [tick] reads from the browser, in the order of the
    reads: [performance.now()]; [new Date()] for [endedISO]; [Date.now()]
    in the fallback of [startedISO]; [crypto.randomUUID()] when the browser
    has it, and [Date.now()] for the id when it has not; the [new Date()]
    of [todayKey]; [new Date()] for the next [phaseStartISO]. *)
Record TickEnv : Type := mkTickEnv {
  perf_now : Q;
  date_ended : Z;
  date_now_started : Z;
  randomUUID : option string;
  date_now_id : Z;
  date_today : LocalDate;
  date_phase : Z;
}.

Definition entry (id day : string) (m : Mode) (duration : number)
    (startedAt endedAt : string) : value :=
  VObj (list_to_map [ ("id", VStr id);
                      ("day", VStr day);
                      ("mode", VStr (mode_name m));
                      ("duration", VNum duration);
                      ("startedAt", VStr startedAt);
                      ("endedAt", VStr endedAt) ]).

(** A handler either returns or is left by an exception; either way the
    page keeps the state it had at that point. *)
Inductive outcome : Type :=
| Returns (a : App)
| Throws (error : string) (a : App).

Definition after (o : outcome) : App :=
  match o with
  | Returns a => a
  | Throws _ a => a
  end.

(** [state.phaseStartISO || new Date(Date.now() - state.totalSec*1000).toISOString()] *)
Definition startedISO (c : TickEnv) (a : App) : option string :=
  match phase_started (state a) with
  | Some t => Some t
  | None =>
      Date_toISOString (sub (of_Z (date_now_started c)) (mul (totalSec (state a)) (Fin 1000)))
  end.

(** The part of [tick] that follows the computation of [startedISO]. *)
Definition complete (c : TickEnv) (started : string) (a : App) : App :=
  let endedISO := iso_of_ms (date_ended c) in
  let id := match randomUUID c with
            | Some u => u
            | None => String_of_Z (date_now_id c)
            end in
  let e := entry id (todayKey (date_today c)) (mode (state a)) (totalSec (state a))
                 started endedISO in
  let a := on_state (set_history (e :: history (state a))) a in
  let a := if (200 <? length (history (state a)))%nat
           then on_state (set_history (take 200 (history (state a)))) a
           else a in
  let a := saveHistory a in
  let a := match mode (state a) with
           | focus => setMode short a
           | _ => setMode focus a
           end in
  let a := on_state (set_totalSec (mul (ToNumber (modeToMinutes a (mode (state a)))) (Fin 60))) a in
  let a := on_state (set_remainingSec (totalSec (state a))) a in
  let a := on_state (set_phaseStartISO (Some (iso_of_ms (date_phase c)))) a in
  let a := on_state (set_lastPerf None) a in
  let a := set_phaseText (modeLabel (mode (state a))) a in
  if ToBoolean (get (settings (state a)) "autoStart") then a else pause a.

(** The first part of [tick]: the elapsed time is taken off. *)
Definition elapse (c : TickEnv) (a : App) : App :=
  let now := perf_now c in
  let last := match lastPerf (state a) with
              | Some p => p
              | None => now
              end in
  let dt := ((now - last) / 1000)%Q in
  let a := on_state (set_lastPerf (Some now)) a in
  on_state (set_remainingSec (sub (remainingSec (state a)) (Fin dt))) a.

Definition tick (c : TickEnv) (a : App) : outcome :=
  if running (state a) then
    let a := elapse c a in
    if le (remainingSec (state a)) (Fin 0) then
      match startedISO c a with
      | Some started => Returns (complete c started a)
      | None => Throws "RangeError" a
      end
    else Returns a
  else Returns a.

(** ** Settings form *)

Record Form : Type := mkForm {
  focusInput : string;
  shortInput : string;
  longInput : string;
  goalInput : string;
  autoStartToggle : bool;
}.

Definition clamp (v a b : number) : number := max a (min b v).

(** [Number(input.value || d)] *)
Definition Number_or (input : string) (d : Q) : number :=
  if String.eqb input "" then Fin d else StringToNumber input.

Definition assign (k : string) (v : value) (a : App) : App :=
  on_state (λ s, set_settings (<[k := v]> (settings s)) s) a.

Definition applySettingsFromUI (f : Form) (a : App) : App :=
  let a := assign "focusMin" (VNum (clamp (Number_or (focusInput f) 25) (Fin 1) (Fin 120))) a in
  let a := assign "shortMin" (VNum (clamp (Number_or (shortInput f) 5) (Fin 1) (Fin 60))) a in
  let a := assign "longMin" (VNum (clamp (Number_or (longInput f) 15) (Fin 1) (Fin 90))) a in
  let a := assign "goalSessions" (VNum (clamp (Number_or (goalInput f) 8) (Fin 1) (Fin 30))) a in
  let a := assign "autoStart" (VBool (autoStartToggle f)) a in
  let a := saveSettings a in
  if running (state a) then a else resetTimer true a.

Definition toggleTheme (a : App) : App :=
  let dark := match get (settings (state a)) "theme" with
              | VStr t => String.eqb t "dark"
              | _ => false
              end in
  saveSettings (assign "theme" (VStr (if dark then "light" else "dark")) a).

(** ** The page: start-up and event handlers *)

(** The [state] literal, on the [localStorage] the page finds. *)
Definition initial (ls : gmap string text) : App :=
  mkApp (mkState focus false (Fin (25 * 60)) (Fin (25 * 60)) None None None
                 (loadSettings ls) (loadHistory ls))
        (mkElements "" "")
        (mkBrowser ∅ 1%positive ls).

Definition init (a : App) : App := resetTimer true (setMode focus a).

Inductive Event : Type :=
| ClickStartPause (date : Z)
| ClickReset
| ClickTab (m : Mode)
| IntervalTick (c : TickEnv)
| ChangeSettings (f : Form)
| ClickThemeToggle
| ClickClearData (confirmed : bool).

Definition handle (e : Event) (a : App) : App :=
  match e with
  | ClickStartPause date => if running (state a) then pause a else start date a
  | ClickReset => resetTimer true a
  | ClickTab m => setMode m a
  | IntervalTick c => after (tick c a)
  | ChangeSettings f => applySettingsFromUI f a
  | ClickThemeToggle => toggleTheme a
  | ClickClearData confirmed =>
      if confirmed then
        let a := clearAll a in
        let a := on_state (set_settings defaults) a in
        let a := on_state (set_history []) a in
        let a := saveHistory (saveSettings a) in
        resetTimer false (setMode focus a)
      else a
  end.

Definition run (es : list Event) (a : App) : App := foldl (λ a e, handle e a) a es.

(** ** Predicates of the statements *)

(** [e.k] for a value [e]. *)
Definition property (e : value) (k : string) : value :=
  match e with
  | VObj o => get o k
  | _ => VUndefined
  end.

(** A number between [lo] and [hi]. *)
Definition within (lo hi : Q) (v : value) : bool :=
  match v with
  | VNum (Fin q) => Qle_bool lo q && Qle_bool q hi
  | _ => false
  end.

(** Settings whose numeric fields are within their ranges. *)
Definition valid_settings (o : gmap string value) : bool :=
  within 1 120 (get o "focusMin") && within 1 60 (get o "shortMin")
  && within 1 90 (get o "longMin") && within 1 30 (get o "goalSessions").

(** The upper end of the range of a mode's minutes. *)
Definition mode_limit (m : Mode) : Q :=
  match m with
  | focus => 120
  | short => 60
  | long => 90
  end.

(** [0 <= remainingSec && remainingSec <= totalSec] *)
Definition in_bounds (s : State) : bool :=
  le (Fin 0) (remainingSec s) && le (remainingSec s) (totalSec s).

(** A running timer has the start of its phase recorded. *)
Definition stamped (s : State) : bool :=
  if running s then bool_decide (is_Some (phase_started s)) else true.

(** The invariant of the page. *)
Definition inv (a : App) : bool :=
  valid_settings (settings (state a)) && in_bounds (state a) && stamped (state a).

(** The seconds a tick takes off: the time since the last tick. *)
Definition elapsed (c : TickEnv) (a : App) : Q :=
  ((perf_now c - match lastPerf (state a) with
                 | Some p => p
                 | None => perf_now c
                 end) / 1000)%Q.

(** The tick finds the timer running and takes the remaining time to zero
    or below. *)
Definition completes (c : TickEnv) (a : App) : bool :=
  running (state a) && le (remainingSec (state (elapse c a))) (Fin 0).

(** [performance.now()] has not gone back since the last tick. *)
Definition clock_ahead (c : TickEnv) (a : App) : bool :=
  match lastPerf (state a) with
  | Some p => Qle_bool p (perf_now c)
  | None => true
  end.

(** The mode that follows a completed phase. *)
Definition next_mode (m : Mode) : Mode :=
  match m with
  | focus => short
  | short => focus
  | long => focus
  end.

(** The entry a completing tick writes, given the start timestamp. *)
Definition completed_entry (c : TickEnv) (started : string) (a : App) : value :=
  entry (match randomUUID c with
         | Some u => u
         | None => String_of_Z (date_now_id c)
         end)
        (todayKey (date_today c)) (mode (state a)) (totalSec (state a))
        started (iso_of_ms (date_ended c)).

(** The entry the tick writes, if it writes one. *)
Definition logged (c : TickEnv) (a : App) : option value :=
  if completes c a then
    match startedISO c a with
    | Some started => Some (completed_entry c started a)
    | None => None
    end
  else None.

(** The entries written during a run, oldest first. *)
Fixpoint logged_in (es : list Event) (a : App) : list value :=
  match es with
  | [] => []
  | e :: es =>
      match e with
      | IntervalTick c => option_list (logged c a)
      | _ => []
      end ++ logged_in es (handle e a)
  end.

(** The event clears the history. *)
Definition is_clear (e : Event) : bool :=
  match e with
  | ClickClearData true => true
  | _ => false
  end.






(** The settings a form leaves. *)
Definition form_settings (f : Form) (o : gmap string value) : gmap string value :=
  <["autoStart" := VBool (autoStartToggle f)]>
    (<["goalSessions" := VNum (clamp (Number_or (goalInput f) 8) (Fin 1) (Fin 30))]>
       (<["longMin" := VNum (clamp (Number_or (longInput f) 15) (Fin 1) (Fin 90))]>
          (<["shortMin" := VNum (clamp (Number_or (shortInput f) 5) (Fin 1) (Fin 60))]>
             (<["focusMin" := VNum (clamp (Number_or (focusInput f) 25) (Fin 1) (Fin 120))]>
                o)))).




(** The interval handle the state holds and the intervals the browser has
    scheduled. *)
Definition schedule (a : App) : option positive * gset positive :=
  (interval (state a), intervals (browser a)).

(** The scheduled intervals are exactly the one the state holds. *)
Definition one_schedule (a : App) : Prop :=
  intervals (browser a) = match interval (state a) with
                          | Some h => {[ h ]}
                          | None => ∅
                          end.

(** ** Examples *)

(** Readings of a tick at [p] milliseconds of [performance.now()] and
    [date] milliseconds of wall-clock time. *)
Definition example_env (p : Q) (date : Z) : TickEnv :=
  mkTickEnv p date date None date (mkLocalDate 2023 10 14) date.

(** The fresh page after a click on start and a first tick. *)
Definition example_running : App :=
  run [ClickStartPause 1699998500000; IntervalTick (example_env 0 1699998500000)]
      (init (initial ∅)).



(** ** The rest of the page

    The helpers and handlers around the state machine: the time text, the
    ring, the theme, the bottom cards, the history list, and the handlers
    with their calls of [updateBottom] in place. *)

(** *** More arithmetic *)

(** [a + b] *)
Definition num_add (a b : number) : number :=
  match a, b with
  | NaN, _ | _, NaN => NaN
  | PosInf, NegInf | NegInf, PosInf => NaN
  | PosInf, _ | _, PosInf => PosInf
  | NegInf, _ | _, NegInf => NegInf
  | Fin x, Fin y => Fin (x + y)
  end.

(** [a / b]; a zero divisor is taken as [+0]. *)
Definition num_div (a b : number) : number :=
  match a, b with
  | NaN, _ | _, NaN => NaN
  | (PosInf | NegInf), (PosInf | NegInf) => NaN
  | PosInf, Fin q => if Qneg_b q then NegInf else PosInf
  | NegInf, Fin q => if Qneg_b q then PosInf else NegInf
  | Fin _, (PosInf | NegInf) => Fin 0
  | Fin x, Fin y =>
      if Qeq_bool y 0
      then (if Qpos_b x then PosInf else if Qneg_b x then NegInf else NaN)
      else Fin (x / y)
  end.

(** [Math.floor(a)] *)
Definition num_floor (a : number) : number :=
  match a with
  | Fin q => of_Z (Qfloor q)
  | _ => a
  end.



(** [String(n)] where it is a matter of digits: an integer below [10^21]
    in size, [NaN] and the infinities.  The text of any other number is
    not modelled ([None]). *)
Definition String_of_number (n : number) : option string :=
  match n with
  | NaN => Some "NaN"
  | PosInf => Some "Infinity"
  | NegInf => Some "-Infinity"
  | Fin q =>
      if Qeq_bool q (inject_Z (Qfloor q)) && (Z.abs (Qfloor q) <? 10 ^ 21)%Z
      then Some (String_of_Z (Qfloor q))
      else None
  end.

(** *** The time text *)



(** *** Theme and ring *)

(** The [data-theme] attribute [applyTheme] sets. *)
Definition applyTheme (a : App) : string :=
  match get (settings (state a)) "theme" with
  | VStr t => if String.eqb t "light" then "light" else "dark"
  | _ => "dark"
  end.

(** The [progress] of [setRing]; the stroke offset is the circumference
    times [1 - progress]. *)
Definition ring_progress (s : State) : number :=
  sub (Fin 1) (num_div (remainingSec s) (max (Fin 1) (totalSec s))).

(** *** The bottom cards *)

(** [item.k]; [None] stands for the [TypeError] of reading a property of
    [null] or [undefined]. *)
Definition member (item : value) (k : string) : option value :=
  match item with
  | VUndefined | VNull => None
  | VObj o => Some (get o k)
  | _ => Some VUndefined
  end.

(** [v === t] for a text [t]. *)
Definition is_text (v : value) (t : string) : bool :=
  match v with
  | VStr s => String.eqb s t
  | _ => false
  end.

(** [acc + d] for the sum of durations: a numeric sum as long as no
    operand is a text or an object; once [+] has concatenated texts the
    sum is not modelled ([None]). *)
Definition plus_duration (acc : option number) (d : value) : option number :=
  match acc, d with
  | Some n, (VUndefined | VNull | VBool _ | VNum _) => Some (num_add n (ToNumber d))
  | _, _ => None
  end.

Record Tally : Type := mkTally {
  focusSessions : nat;
  focusSeconds : option number;
  lastFocus : option value;
}.

(** One turn of the loop of [updateBottom]. *)
Definition tally_item (t : string) (item : value) (acc : Tally) : option Tally :=
  match member item "day" with
  | None => None
  | Some day =>
      if is_text day t then
        match member item "mode" with
        | None => None
        | Some m =>
            if is_text m "focus" then
              Some (mkTally (S (focusSessions acc))
                            (plus_duration (focusSeconds acc) (property item "duration"))
                            (match lastFocus acc with
                             | Some l => Some l
                             | None => Some item
                             end))
            else Some acc
        end
      else Some acc
  end.

Fixpoint tally (t : string) (items : list value) (acc : Tally) : option Tally :=
  match items with
  | [] => Some acc
  | item :: rest =>
      match tally_item t item acc with
      | Some acc => tally t rest acc
      | None => None
      end
  end.

(** What [updateBottom] writes, before the numbers are made texts. *)
Record Bottom : Type := mkBottom {
  goalTotal : value;
  goalDone : nat;
  fill_pct : number;
  goal_remaining : number;
  focusedMins : option number;
  lastSession : option value;
}.

(** [today] is the [new Date()] of [todayKey]; [None] stands for the
    [TypeError]. *)
Definition updateBottom (today : LocalDate) (a : App) : option Bottom :=
  match tally (todayKey today) (history (state a)) (mkTally 0 (Some (Fin 0)) None) with
  | None => None
  | Some r =>
      let goal := get (settings (state a)) "goalSessions" in
      let n := of_Z (Z.of_nat (focusSessions r)) in
      Some (mkBottom goal (focusSessions r)
              (max (Fin 0) (min (Fin 100)
                              (mul (num_div n (max (Fin 1) (ToNumber goal))) (Fin 100))))
              (max (Fin 0) (sub (ToNumber goal) n))
              ((λ secs, num_floor (num_div secs (Fin 60))) <$> focusSeconds r)
              (lastFocus r))
  end.

(** *** The history list *)





(** *** The handlers with [updateBottom] in place *)

(** [complete] with the call of [updateBottom] that follows [saveHistory]. *)
Definition complete_page (c : TickEnv) (today : LocalDate) (started : string) (a : App)
    : outcome :=
  let endedISO := iso_of_ms (date_ended c) in
  let id := match randomUUID c with
            | Some u => u
            | None => String_of_Z (date_now_id c)
            end in
  let e := entry id (todayKey (date_today c)) (mode (state a)) (totalSec (state a))
                 started endedISO in
  let a := on_state (set_history (e :: history (state a))) a in
  let a := if (200 <? length (history (state a)))%nat
           then on_state (set_history (take 200 (history (state a)))) a
           else a in
  let a := saveHistory a in
  match updateBottom today a with
  | None => Throws "TypeError" a
  | Some _ =>
      let a := match mode (state a) with
               | focus => setMode short a
               | _ => setMode focus a
               end in
      let a := on_state (set_totalSec (mul (ToNumber (modeToMinutes a (mode (state a)))) (Fin 60))) a in
      let a := on_state (set_remainingSec (totalSec (state a))) a in
      let a := on_state (set_phaseStartISO (Some (iso_of_ms (date_phase c)))) a in
      let a := on_state (set_lastPerf None) a in
      let a := set_phaseText (modeLabel (mode (state a))) a in
      Returns (if ToBoolean (get (settings (state a)) "autoStart") then a else pause a)
  end.

Definition tick_page (c : TickEnv) (today : LocalDate) (a : App) : outcome :=
  if running (state a) then
    let a := elapse c a in
    if le (remainingSec (state a)) (Fin 0) then
      match startedISO c a with
      | Some started => complete_page c today started a
      | None => Throws "RangeError" a
      end
    else Returns a
  else Returns a.





(** No item of the history is [null] or [undefined]. *)
Definition nullish (v : value) : bool :=
  match v with
  | VUndefined | VNull => true
  | _ => false
  end.

Definition sound_history (a : App) : bool :=
  forallb (λ v, negb (nullish v)) (history (state a)).

(** A value that [JSON.stringify] and [JSON.parse] give back as it is. *)
Definition json_stable (v : value) : Prop :=
  v ≠ VUndefined ∧ json_image v = v.

(** A calendar date with a four-digit year. *)
Definition plain_date (d : LocalDate) : bool :=
  ((1000 <=? getFullYear d) && (getFullYear d <=? 9999)
   && (0 <=? getMonth d) && (getMonth d <=? 11)
   && (1 <=? getDate d) && (getDate d <=? 31))%Z.

(** A focus entry of the day with key [t]. *)
Definition is_focus_of (t : string) (item : value) : bool :=
  is_text (property item "day") t && is_text (property item "mode") "focus".



(** The page when a completing tick has logged and saved its entry and
    is about to call [updateBottom]. *)
Definition log_entry (c : TickEnv) (started : string) (a : App) : App :=
  saveHistory
    (on_state (set_history (take 200 (completed_entry c started a :: history (state a)))) a).

(** The event is a click on the tab of the long break. *)
Definition picks_long (e : Event) : bool :=
  match e with
  | ClickTab long => true
  | _ => false
  end.

(** The state holds an interval handle exactly when the timer runs. *)
Definition ticking (s : State) : bool :=
  Bool.eqb (running s) (bool_decide (is_Some (interval s))).

(** *** The settings dialog *)

(** The text an input gets from [input.value = v] for a whole number [v]
    below [10^21] in size.  For any other value the text depends on the
    type of the input, and is not modelled ([None]). *)
Definition input_text (v : value) : option string :=
  match v with
  | VNum (Fin q) => String_of_number (Fin q)
  | _ => None
  end.

Definition syncSettingsUI (a : App) : option Form :=
  match input_text (get (settings (state a)) "focusMin"),
        input_text (get (settings (state a)) "shortMin"),
        input_text (get (settings (state a)) "longMin"),
        input_text (get (settings (state a)) "goalSessions") with
  | Some f, Some s, Some l, Some g =>
      Some (mkForm f s l g (ToBoolean (get (settings (state a)) "autoStart")))
  | _, _, _, _ => None
  end.

(** A whole number between [lo] and [hi]. *)
Definition whole_within (lo hi : Z) (v : value) : bool :=
  match v with
  | VNum (Fin q) =>
      Qeq_bool q (inject_Z (Qfloor q)) && (lo <=? Qfloor q)%Z && (Qfloor q <=? hi)%Z
  | _ => false
  end.

(** Settings whose numeric fields are whole numbers within their ranges. *)
Definition whole_settings (o : gmap string value) : bool :=
  whole_within 1 120 (get o "focusMin") && whole_within 1 60 (get o "shortMin")
  && whole_within 1 90 (get o "longMin") && whole_within 1 30 (get o "goalSessions").

(** The same number, whatever its fraction is written as. *)
Definition same_number (v w : value) : Prop :=
  ∃ p q, v = VNum (Fin p) ∧ w = VNum (Fin q) ∧ (p == q)%Q.

(** * Properties *)

#[local] Arguments iso_of_ms : simpl never.
#[local] Arguments StringToNumber : simpl never.
#[local] Arguments ToNumber : simpl never.
#[local] Arguments ToBoolean : simpl never.
#[local] Arguments get : simpl never.
#[local] Arguments JSON_stringify : simpl never.
#[local] Arguments todayKey : simpl never.
#[local] Arguments String_of_Z : simpl never.
#[local] Arguments entry : simpl never.

(** ** Starting and pausing *)

Lemma pause_pause (a : App) : pause (pause a) = pause a.
Proof.
  destruct a as [[m r t rem lp [h|] ps st hi] [pi pt] [iv nh ls]]; reflexivity.
Qed.

Lemma start_running (date : Z) (a : App) : running (state (start date a)) = true.
Proof.
  unfold start. destruct (running (state a)) eqn:R; [done|].
  cbn. destruct (phase_started _); cbn; by destruct (interval (state a)).
Qed.

Lemma start_when_running (date : Z) (a : App) :
  running (state a) = true → start date a = a.
Proof. intros R. unfold start. by rewrite R. Qed.

Lemma start_start (d1 d2 : Z) (a : App) : start d2 (start d1 a) = start d1 a.
Proof. apply start_when_running, start_running. Qed.

Lemma pause_schedule (a : App) :
  schedule (pause a)
  = (None, match interval (state a) with
           | Some h => intervals (browser a) ∖ {[ h ]}
           | None => intervals (browser a)
           end).
Proof. destruct a as [[m r t rem lp [h|] ps st hi] [pi pt] [iv nh ls]]; reflexivity. Qed.

Lemma start_schedule (date : Z) (a : App) :
  running (state a) = false →
  schedule (start date a)
  = match interval (state a) with
    | Some h => (Some h, intervals (browser a))
    | None => (Some (next_handle (browser a)),
               {[ next_handle (browser a) ]} ∪ intervals (browser a))
    end.
Proof.
  destruct a as [[m r t rem lp iv ps st hi] [pi pt] [ivs nh ls]]. cbn [state running].
  intros ->. unfold start. cbn [state running on_state set_running set_playIcon].
  destruct (phase_started _); destruct iv; reflexivity.
Qed.

Lemma resetTimer_schedule (keepMode : bool) (a : App) :
  schedule (resetTimer keepMode a) = schedule (pause a).
Proof.
  destruct a as [[m r t rem lp [h|] ps st hi] [pi pt] [iv nh ls]];
    destruct keepMode; reflexivity.
Qed.

Lemma pause_one_schedule (a : App) : one_schedule a → one_schedule (pause a).
Proof.
  unfold one_schedule. intros H.
  change (snd (schedule (pause a)) = match fst (schedule (pause a)) with
                                     | Some h => {[ h ]}
                                     | None => ∅
                                     end).
  rewrite pause_schedule. cbn [fst snd]. rewrite H.
  destruct (interval (state a)); [apply difference_diag_L|done].
Qed.

Lemma start_one_schedule (date : Z) (a : App) :
  one_schedule a → one_schedule (start date a).
Proof.
  destruct (running (state a)) eqn:R; [by rewrite start_when_running|].
  unfold one_schedule. intros H.
  change (snd (schedule (start date a)) = match fst (schedule (start date a)) with
                                          | Some h => {[ h ]}
                                          | None => ∅
                                          end).
  rewrite (start_schedule date a R), H.
  destruct (interval (state a)); cbn [fst snd]; [done|apply union_empty_r_L].
Qed.

(** ** Reset *)

Lemma within_inv (lo hi : Q) (v : value) :
  within lo hi v = true → ∃ q, v = VNum (Fin q) ∧ (lo <= q)%Q ∧ (q <= hi)%Q.
Proof.
  destruct v as [| | |[| |q|]| | |]; try discriminate. cbn.
  intros [H1 H2]%andb_prop. exists q. by rewrite <- !Qle_bool_iff.
Qed.

Lemma valid_minutes (a : App) (m : Mode) :
  valid_settings (settings (state a)) = true →
  ∃ q, modeToMinutes a m = VNum (Fin q) ∧ (1 <= q)%Q ∧ (q <= mode_limit m)%Q.
Proof.
  unfold valid_settings. intros [[[Hf Hs]%andb_prop Hl]%andb_prop _]%andb_prop.
  destruct m; cbn; by apply within_inv.
Qed.

Lemma resetTimer_state (keepMode : bool) (a : App) :
  let m := if keepMode then mode (state a) else focus in
  let t := mul (ToNumber (modeToMinutes a m)) (Fin 60) in
  state (resetTimer keepMode a)
  = mkState m false t t None None None (settings (state a)) (history (state a)).
Proof.
  destruct a as [[m r t rem lp [h|] ps st hi] [pi pt] [iv nh ls]];
    destruct keepMode; reflexivity.
Qed.



(** ** The tick *)

Lemma cap_history (a : App) :
  (if (200 <? length (history (state a)))%nat
   then on_state (set_history (take 200 (history (state a)))) a
   else a)
  = on_state (set_history (take 200 (history (state a)))) a.
Proof.
  destruct (Nat.ltb_spec 200 (length (history (state a)))); [done|].
  rewrite take_ge by lia. by destruct a as [[] ? ?].
Qed.

Lemma elapse_state (c : TickEnv) (a : App) :
  state (elapse c a)
  = set_remainingSec
      (sub (remainingSec (state a))
           (Fin ((perf_now c - match lastPerf (state a) with
                               | Some p => p
                               | None => perf_now c
                               end) / 1000)))
      (set_lastPerf (Some (perf_now c)) (state a)).
Proof. reflexivity. Qed.

Lemma elapse_rest (c : TickEnv) (a : App) :
  el (elapse c a) = el a ∧ browser (elapse c a) = browser a.
Proof. done. Qed.

Lemma startedISO_elapse (c : TickEnv) (a : App) :
  startedISO c (elapse c a) = startedISO c a.
Proof. reflexivity. Qed.

Lemma complete_state (c : TickEnv) (started : string) (a : App) :
  running (state a) = true →
  let m := next_mode (mode (state a)) in
  let t := mul (ToNumber (modeToMinutes a m)) (Fin 60) in
  let auto := ToBoolean (get (settings (state a)) "autoStart") in
  state (complete c started a)
  = mkState m auto t t None (if auto then interval (state a) else None)
            (Some (iso_of_ms (date_phase c))) (settings (state a))
            (take 200 (completed_entry c started a :: history (state a))).
Proof.
  destruct a as [[m r t rem lp iv ps st hi] [pi pt] [ivs nh ls]]. cbn [state running].
  intros ->. unfold complete.
  rewrite cap_history.
  unfold completed_entry. cbn [state on_state set_history mode totalSec history].
  set (e := entry _ _ _ _ _ _). set (h := take 200 _).
  destruct m; cbn [next_mode]; unfold saveHistory, setItem, setMode; cbn;
    destruct (ToBoolean _) eqn:E; try reflexivity;
    unfold pause; cbn; destruct iv; reflexivity.
Qed.

Lemma tick_paused (c : TickEnv) (a : App) :
  running (state a) = false → tick c a = Returns a.
Proof. intros R. unfold tick. by rewrite R. Qed.

Lemma tick_counts (c : TickEnv) (a : App) :
  running (state a) = true → completes c a = false →
  tick c a = Returns (elapse c a).
Proof.
  unfold completes, tick. intros ->. cbn [andb]. by intros ->.
Qed.

Lemma tick_completes (c : TickEnv) (a : App) (started : string) :
  completes c a = true → startedISO c a = Some started →
  tick c a = Returns (complete c started (elapse c a)).
Proof.
  unfold completes, tick. intros [-> ->]%andb_prop.
  rewrite startedISO_elapse. by intros ->.
Qed.

Lemma tick_throws (c : TickEnv) (a : App) :
  completes c a = true → startedISO c a = None →
  tick c a = Throws "RangeError" (elapse c a).
Proof.
  unfold completes, tick. intros [-> ->]%andb_prop.
  rewrite startedISO_elapse. by intros ->.
Qed.

Lemma completes_running (c : TickEnv) (a : App) :
  completes c a = true → running (state a) = true.
Proof. by intros [? _]%andb_prop. Qed.

(** The state a completing tick leaves. *)
Lemma tick_completes_state (c : TickEnv) (a : App) (started : string) :
  completes c a = true → startedISO c a = Some started →
  let m := next_mode (mode (state a)) in
  let t := mul (ToNumber (modeToMinutes a m)) (Fin 60) in
  let auto := ToBoolean (get (settings (state a)) "autoStart") in
  state (after (tick c a))
  = mkState m auto t t None (if auto then interval (state a) else None)
            (Some (iso_of_ms (date_phase c))) (settings (state a))
            (take 200 (completed_entry c started a :: history (state a))).
Proof.
  intros C S. rewrite (tick_completes c a started C S). cbn [after].
  rewrite complete_state; [reflexivity|].
  exact (completes_running c a C).
Qed.

Lemma logged_completes (c : TickEnv) (a : App) (started : string) :
  completes c a = true → startedISO c a = Some started →
  logged c a = Some (completed_entry c started a).
Proof. unfold logged. by intros -> ->. Qed.



(** ** The history entry *)

Lemma entry_fields (id day : string) (m : Mode) (d : number) (s e : string) :
  property (entry id day m d s e) "id" = VStr id
  ∧ property (entry id day m d s e) "day" = VStr day
  ∧ property (entry id day m d s e) "mode" = VStr (mode_name m)
  ∧ property (entry id day m d s e) "duration" = VNum d
  ∧ property (entry id day m d s e) "startedAt" = VStr s
  ∧ property (entry id day m d s e) "endedAt" = VStr e.
Proof. split_and!; reflexivity. Qed.

Lemma completed_entry_fields (c : TickEnv) (started : string) (a : App) :
  property (completed_entry c started a) "mode" = VStr (mode_name (mode (state a)))
  ∧ property (completed_entry c started a) "duration" = VNum (totalSec (state a))
  ∧ property (completed_entry c started a) "startedAt" = VStr started
  ∧ property (completed_entry c started a) "endedAt" = VStr (iso_of_ms (date_ended c)).
Proof.
  unfold completed_entry.
  destruct (entry_fields (match randomUUID c with
                          | Some u => u
                          | None => String_of_Z (date_now_id c)
                          end)
              (todayKey (date_today c)) (mode (state a)) (totalSec (state a))
              started (iso_of_ms (date_ended c))) as (_ & _ & Hm & Hd & Hs & He).
  done.
Qed.

Lemma tick_completes_history (c : TickEnv) (a : App) (started : string) :
  completes c a = true → startedISO c a = Some started →
  history (state (after (tick c a)))
  = take 200 (completed_entry c started a :: history (state a)).
Proof. intros C S. by rewrite (tick_completes_state c a started C S). Qed.



(** ** Numbers *)

Lemma le_Fin (x y : Q) : le (Fin x) (Fin y) = true ↔ (x <= y)%Q.
Proof. apply Qle_bool_iff. Qed.

Lemma not_le_Fin (x y : Q) : le (Fin x) (Fin y) = false ↔ (y < x)%Q.
Proof.
  cbn. rewrite <- not_true_iff_false, Qle_bool_iff. split.
  - apply Qnot_le_lt.
  - apply Qlt_not_le.
Qed.

Lemma elapsed_nonneg (c : TickEnv) (a : App) :
  clock_ahead c a = true → (0 <= elapsed c a)%Q.
Proof.
  unfold clock_ahead, elapsed. destruct (lastPerf (state a)) as [p|].
  - rewrite Qle_bool_iff. intros H.
    apply Qle_shift_div_l; [reflexivity|]. lra.
  - intros _. apply Qle_shift_div_l; [reflexivity|]. lra.
Qed.


Lemma elapsed_since (c : TickEnv) (a : App) (p : Q) :
  lastPerf (state a) = Some p → elapsed c a = ((perf_now c - p) / 1000)%Q.
Proof. unfold elapsed. by intros ->. Qed.

(** ** Ticks that count down *)

Lemma completes_false (c : TickEnv) (a : App) (r : Q) :
  remainingSec (state a) = Fin r → (0 < r - elapsed c a)%Q → completes c a = false.
Proof.
  intros R H. unfold completes. rewrite elapse_state. cbn [remainingSec set_remainingSec].
  rewrite R. fold (elapsed c a). cbn [sub].
  apply andb_false_intro2. by apply not_le_Fin.
Qed.

Lemma tick_counts_state (c : TickEnv) (a : App) (r : Q) :
  running (state a) = true → remainingSec (state a) = Fin r →
  (0 < r - elapsed c a)%Q →
  state (after (tick c a))
  = set_remainingSec (Fin (r - elapsed c a)) (set_lastPerf (Some (perf_now c)) (state a)).
Proof.
  intros Hr R H. rewrite tick_counts by eauto using completes_false.
  cbn [after]. rewrite elapse_state, R. reflexivity.
Qed.

(** ** Automatic start of the next phase *)

Lemma complete_browser (c : TickEnv) (started : string) (a : App) :
  running (state a) = true →
  intervals (browser (complete c started a))
  = (if ToBoolean (get (settings (state a)) "autoStart") then intervals (browser a)
     else match interval (state a) with
          | Some h => intervals (browser a) ∖ {[ h ]}
          | None => intervals (browser a)
          end).
Proof.
  destruct a as [[m r t rem lp iv ps st hi] [pi pt] [ivs nh ls]]. cbn [state running].
  intros ->. unfold complete. rewrite cap_history.
  destruct m; unfold saveHistory, setItem, setMode; cbn;
    destruct (ToBoolean _) eqn:E; try reflexivity;
    unfold pause; cbn; destruct iv; reflexivity.
Qed.





(** ** Changing the mode while the timer runs *)

Lemma setMode_running (m : Mode) (a : App) :
  running (state a) = true →
  setMode m a = set_phaseText (modeLabel m) (on_state (set_mode m) a).
Proof. intros R. unfold setMode. cbn. by rewrite R. Qed.

Lemma setMode_paused (m : Mode) (a : App) :
  running (state a) = false →
  setMode m a = resetTimer true (on_state (set_mode m) a).
Proof. intros R. unfold setMode. cbn. by rewrite R. Qed.



(** ** What each handler does to the state *)

Lemma pause_state (a : App) :
  state (pause a) = set_interval None (set_running false (state a)).
Proof. destruct a as [[m r t rem lp [h|] ps st hi] [pi pt] [iv nh ls]]; reflexivity. Qed.

Lemma start_state (date : Z) (a : App) :
  running (state a) = false →
  state (start date a)
  = set_interval (Some (match interval (state a) with
                        | Some h => h
                        | None => next_handle (browser a)
                        end))
      (set_phaseStartISO (match phase_started (state a) with
                          | Some _ => phaseStartISO (state a)
                          | None => Some (iso_of_ms date)
                          end)
         (set_running true (state a))).
Proof.
  destruct a as [[m r t rem lp iv ps st hi] [pi pt] [ivs nh ls]]. cbn [state running].
  intros ->. unfold start. cbn [state running on_state set_running set_playIcon].
  destruct (phase_started _); destruct iv; reflexivity.
Qed.

Lemma applySettings_settings (f : Form) (a : App) :
  settings (state (applySettingsFromUI f a)) = form_settings f (settings (state a)).
Proof.
  unfold applySettingsFromUI.
  set (a1 := saveSettings _).
  assert (settings (state a1) = form_settings f (settings (state a))) as E by reflexivity.
  destruct (running (state a1)); [done|].
  by rewrite resetTimer_state.
Qed.

Lemma applySettings_running (f : Form) (a : App) :
  running (state a) = true →
  state (applySettingsFromUI f a) = set_settings (form_settings f (settings (state a))) (state a).
Proof.
  intros R. unfold applySettingsFromUI.
  set (a1 := saveSettings _).
  assert (state a1 = set_settings (form_settings f (settings (state a))) (state a)) as E
    by reflexivity.
  assert (running (state a1) = true) as R1 by (by rewrite E).
  by rewrite R1.
Qed.

Lemma applySettings_paused (f : Form) (a : App) :
  running (state a) = false →
  let o := form_settings f (settings (state a)) in
  let t := mul (ToNumber (match mode (state a) with
                          | focus => get o "focusMin"
                          | short => get o "shortMin"
                          | long => get o "longMin"
                          end)) (Fin 60) in
  state (applySettingsFromUI f a)
  = mkState (mode (state a)) false t t None None None o (history (state a)).
Proof.
  intros R. unfold applySettingsFromUI.
  set (a1 := saveSettings _).
  assert (state a1 = set_settings (form_settings f (settings (state a))) (state a)) as E
    by reflexivity.
  assert (running (state a1) = false) as R1 by (by rewrite E).
  rewrite R1, resetTimer_state. unfold modeToMinutes. rewrite E. cbn.
  by destruct (mode (state a)).
Qed.

Lemma toggleTheme_state (a : App) :
  ∃ t, state (toggleTheme a) = set_settings (<["theme" := VStr t]> (settings (state a))) (state a).
Proof. unfold toggleTheme. eexists. reflexivity. Qed.

(** ** The history log *)

Lemma logged_not_completes (c : TickEnv) (a : App) :
  completes c a = false → logged c a = None.
Proof. unfold logged. by intros ->. Qed.

Lemma logged_throws (c : TickEnv) (a : App) :
  startedISO c a = None → logged c a = None.
Proof. unfold logged. intros ->. by destruct (completes c a). Qed.

Lemma tick_history (c : TickEnv) (a : App) :
  history (state (after (tick c a)))
  = match logged c a with
    | Some e => take 200 (e :: history (state a))
    | None => history (state a)
    end.
Proof.
  destruct (completes c a) eqn:C.
  - destruct (startedISO c a) as [started|] eqn:S.
    + rewrite (logged_completes c a started C S).
      apply (tick_completes_history c a started C S).
    + rewrite (logged_throws c a S), (tick_throws c a C S). reflexivity.
  - rewrite (logged_not_completes c a C).
    destruct (running (state a)) eqn:R.
    + by rewrite (tick_counts c a R C).
    + by rewrite (tick_paused c a R).
Qed.

Lemma start_history (date : Z) (a : App) :
  history (state (start date a)) = history (state a).
Proof.
  destruct (running (state a)) eqn:R.
  - by rewrite start_when_running.
  - by rewrite start_state.
Qed.

Lemma setMode_history (m : Mode) (a : App) :
  history (state (setMode m a)) = history (state a).
Proof.
  destruct (running (state a)) eqn:R.
  - by rewrite setMode_running.
  - by rewrite setMode_paused, resetTimer_state.
Qed.

Lemma applySettings_history (f : Form) (a : App) :
  history (state (applySettingsFromUI f a)) = history (state a).
Proof.
  destruct (running (state a)) eqn:R.
  - by rewrite applySettings_running.
  - by rewrite applySettings_paused.
Qed.

Lemma handle_history (e : Event) (a : App) :
  history (state (handle e a))
  = match e with
    | IntervalTick c =>
        match logged c a with
        | Some en => take 200 (en :: history (state a))
        | None => history (state a)
        end
    | ClickClearData true => []
    | _ => history (state a)
    end.
Proof.
  destruct e as [date| |m|c|f| |[|]]; cbn [handle].
  - destruct (running (state a)); [by rewrite pause_state|apply start_history].
  - by rewrite resetTimer_state.
  - apply setMode_history.
  - apply tick_history.
  - apply applySettings_history.
  - by destruct (toggleTheme_state a) as [t ->].
  - by rewrite resetTimer_state, setMode_history.
  - done.
Qed.

Lemma take_app_take {A} (n : nat) (l1 l2 : list A) :
  take n (l1 ++ take n l2) = take n (l1 ++ l2).
Proof.
  rewrite !take_app, take_take. do 2 f_equal. lia.
Qed.

Lemma run_cons (e : Event) (es : list Event) (a : App) :
  run (e :: es) a = run es (handle e a).
Proof. reflexivity. Qed.

Lemma run_history (es : list Event) (a : App) :
  forallb (λ e, negb (is_clear e)) es = true →
  history (state (run es a))
  = match logged_in es a with
    | [] => history (state a)
    | _ => take 200 (rev (logged_in es a) ++ history (state a))
    end.
Proof.
  revert a. induction es as [|e es IH]; intros a; [done|].
  cbn [forallb]. intros [He Hes]%andb_prop.
  rewrite run_cons, (IH _ Hes), handle_history. cbn [logged_in].
  assert (match e with
          | IntervalTick c => option_list (logged c a)
          | _ => []
          end = [] ∧ history (state a)
                     = match e with
                       | IntervalTick c =>
                           match logged c a with
                           | Some en => take 200 (en :: history (state a))
                           | None => history (state a)
                           end
                       | ClickClearData true => []
                       | _ => history (state a)
                       end
          ∨ ∃ c en, e = IntervalTick c ∧ logged c a = Some en) as [[-> <-]|(c & en & -> & L)].
  { destruct e as [| | |c| | |[|]];
      [by left|by left|by left| |by left|by left|discriminate He|by left].
    destruct (logged c a) as [en|] eqn:L; [right; eauto|by left]. }
  - done.
  - rewrite L. cbn [option_list app].
    destruct (logged_in es (handle (IntervalTick c) a)) as [|x l]; [done|].
    rewrite take_app_take.
    change (option_list (Some en) ++ x :: l)%list with (en :: x :: l).
    cbn [rev]. by rewrite <- (app_assoc _ [en]).
Qed.

Lemma run_history_length (es : list Event) (a : App) :
  (length (history (state a)) ≤ 200)%nat → (length (history (state (run es a))) ≤ 200)%nat.
Proof.
  revert a. induction es as [|e es IH]; intros a H; [done|].
  rewrite run_cons. apply IH. rewrite handle_history.
  destruct e as [| | |c| | |[|]]; try done.
  - destruct (logged c a); [|done]. rewrite length_take. lia.
  - cbn. lia.
Qed.

(** C4.  The history log is newest first and holds at most 200 entries: a
    completing tick puts its entry at the head and keeps the first 200;
    over a run of events the log is the entries of the run, latest first,
    followed by the log the run began with, cut after 200, so that what
    is dropped is the oldest. *)
Theorem history_newest_first (es : list Event) (a : App) :
  (∀ (c : TickEnv) (started : string),
      completes c a = true → startedISO c a = Some started →
      history (state (after (tick c a)))
      = take 200 (completed_entry c started a :: history (state a))
      ∧ (length (history (state (after (tick c a)))) ≤ 200)%nat)
  ∧ (forallb (λ e, negb (is_clear e)) es = true →
     history (state (run es a))
     = match logged_in es a with
       | [] => history (state a)
       | _ => take 200 (rev (logged_in es a) ++ history (state a))
       end)
  ∧ ((length (history (state a)) ≤ 200)%nat
     → (length (history (state (run es a))) ≤ 200)%nat).
Proof.
  split_and!.
  - intros c started C S. rewrite (tick_completes_history c a started C S).
    split; [done|]. rewrite length_take. lia.
  - apply run_history.
  - apply run_history_length.
Qed.

Lemma history_newest_first_witness :
  let a := on_state (set_history (repeat VNull 200)) example_running in
  let c := example_env 1500000 1700000000000 in
  (length (history (state (after (tick c a)))) ≤ 200)%nat
  ∧ history (state (run [IntervalTick c] a))
    = completed_entry c "2023-11-14T21:48:20.000Z" a :: repeat VNull 199
  ∧ (length (history (state (run [IntervalTick c; ClickReset] a))) ≤ 200)%nat.
Proof.
  intros a c.
  destruct (history_newest_first [IntervalTick c] a) as (H1 & H2 & _).
  destruct (history_newest_first [IntervalTick c; ClickReset] a) as (_ & _ & H3).
  split_and!.
  - apply (H1 c "2023-11-14T21:48:20.000Z"); vm_compute; reflexivity.
  - rewrite H2 by reflexivity.
    assert (logged_in [IntervalTick c] a
            = [completed_entry c "2023-11-14T21:48:20.000Z" a]) as ->.
    { cbn [logged_in]. rewrite (logged_completes c a "2023-11-14T21:48:20.000Z").
      - reflexivity.
      - vm_compute. reflexivity.
      - vm_compute. reflexivity. }
    reflexivity.
  - apply H3. vm_compute. lia.
Defined.

(** ** The invariant *)








Lemma inv_iff (a : App) :
  inv a = true
  ↔ valid_settings (settings (state a)) = true
    ∧ in_bounds (state a) = true
    ∧ stamped (state a) = true.
Proof. unfold inv. rewrite !andb_true_iff. tauto. Qed.

Lemma phase_bounds (q : Q) :
  (1 <= q)%Q → le (Fin 0) (Fin (q * 60)) && le (Fin (q * 60)) (Fin (q * 60)) = true.
Proof.
  intros H. apply andb_true_intro. split; apply le_Fin; lra.
Qed.

Lemma fresh_phase_bounds (a : App) (m : Mode) (s : State) :
  valid_settings (settings (state a)) = true →
  remainingSec s = mul (ToNumber (modeToMinutes a m)) (Fin 60) →
  totalSec s = mul (ToNumber (modeToMinutes a m)) (Fin 60) →
  in_bounds s = true.
Proof.
  intros V Hr Ht. destruct (valid_minutes a m V) as (q & E & Hq & _).
  unfold in_bounds. rewrite Hr, Ht, E. cbn -[Qmult]. by apply phase_bounds.
Qed.




Lemma resetTimer_inv (keepMode : bool) (a : App) :
  valid_settings (settings (state a)) = true → inv (resetTimer keepMode a) = true.
Proof.
  intros V. apply inv_iff. rewrite resetTimer_state. cbn [settings].
  split_and!; [done| |done].
  eapply (fresh_phase_bounds a); [done|reflexivity|reflexivity].
Qed.

Lemma setMode_settings (m : Mode) (a : App) :
  settings (state (setMode m a)) = settings (state a).
Proof.
  destruct (running (state a)) eqn:R.
  - by rewrite setMode_running.
  - by rewrite setMode_paused, resetTimer_state.
Qed.





Lemma init_inv (ls : gmap string text) :
  valid_settings (loadSettings ls) = true → inv (init (initial ls)) = true.
Proof.
  intros V. unfold init. apply resetTimer_inv. by rewrite setMode_settings.
Qed.







(** ** Loading the settings *)

Lemma loadSettings_cases (ls : gmap string text) :
  loadSettings ls = defaults
  ∨ ∃ v, ls !! SETTINGS_KEY = Some (Json v) ∧ loadSettings ls = spread v ∪ defaults.
Proof.
  unfold loadSettings. destruct (ls !! SETTINGS_KEY) as [[raw|v]|]; [|right; eauto|by left].
  left. cbn. by destruct (String.eqb raw "").
Qed.

(** C7.  [loadSettings] returns a record with every field of the defaults
    present.  Without a stored text, or with one that does not parse (the
    [SyntaxError] is caught), it returns the defaults.  With a stored
    object each field is the stored one when there is one and the default
    otherwise. *)
Theorem loadSettings_complete (ls : gmap string text) :
  (∀ k, is_Some (defaults !! k) → is_Some (loadSettings ls !! k))
  ∧ (ls !! SETTINGS_KEY = None → loadSettings ls = defaults)
  ∧ (∀ raw, ls !! SETTINGS_KEY = Some (Garbled raw) → loadSettings ls = defaults)
  ∧ (∀ o, ls !! SETTINGS_KEY = Some (Json (VObj o)) →
          ∀ k, loadSettings ls !! k = match o !! k with
                                      | Some v => Some v
                                      | None => defaults !! k
                                      end).
Proof.
  split_and!.
  - intros k Hk. destruct (loadSettings_cases ls) as [->|(v & _ & ->)]; [done|].
    apply lookup_union_is_Some. by right.
  - unfold loadSettings. by intros ->.
  - unfold loadSettings. intros raw ->. cbn. by destruct (String.eqb raw "").
  - unfold loadSettings. intros o -> k. cbn [is_empty_text JSON_parse spread].
    rewrite lookup_union. destruct (o !! k), (defaults !! k); reflexivity.
Qed.

Lemma loadSettings_complete_witness :
  loadSettings ∅ = defaults
  ∧ loadSettings (<[SETTINGS_KEY := Garbled "{not json"]> ∅) = defaults
  ∧ get (loadSettings (<[SETTINGS_KEY := Json (VObj (<["focusMin" := VNum (Fin 50)]> ∅))]> ∅))
        "focusMin" = VNum (Fin 50)
  ∧ get (loadSettings (<[SETTINGS_KEY := Json (VObj (<["focusMin" := VNum (Fin 50)]> ∅))]> ∅))
        "shortMin" = VNum (Fin 5)
  ∧ is_Some (loadSettings (<[SETTINGS_KEY := Json (VObj (<["focusMin" := VNum (Fin 50)]> ∅))]> ∅)
             !! "autoStart").
Proof.
  destruct (loadSettings_complete ∅) as (_ & H0 & _).
  destruct (loadSettings_complete (<[SETTINGS_KEY := Garbled "{not json"]> ∅))
    as (_ & _ & Hg & _).
  destruct (loadSettings_complete
              (<[SETTINGS_KEY := Json (VObj (<["focusMin" := VNum (Fin 50)]> ∅))]> ∅))
    as (Hc & _ & _ & H).
  split_and!.
  - by apply H0.
  - by apply (Hg "{not json").
  - unfold get. by rewrite (H (<["focusMin" := VNum (Fin 50)]> ∅) eq_refl "focusMin").
  - unfold get. by rewrite (H (<["focusMin" := VNum (Fin 50)]> ∅) eq_refl "shortMin").
  - apply Hc. by eexists.
Defined.

(** ** The settings form *)


Lemma resetTimer_localStorage (keepMode : bool) (a : App) :
  localStorage (browser (resetTimer keepMode a)) = localStorage (browser a).
Proof.
  destruct a as [[m r t rem lp [h|] ps st hi] [pi pt] [iv nh ls]];
    destruct keepMode; reflexivity.
Qed.








(** ** One interval *)

Lemma setMode_schedule (m : Mode) (a : App) :
  schedule (setMode m a) = if running (state a) then schedule a else schedule (pause a).
Proof.
  destruct (running (state a)) eqn:R.
  - by rewrite setMode_running.
  - rewrite setMode_paused, resetTimer_schedule by done.
    by rewrite !pause_schedule.
Qed.

Lemma complete_schedule (c : TickEnv) (started : string) (a : App) :
  running (state a) = true →
  schedule (complete c started a)
  = if ToBoolean (get (settings (state a)) "autoStart") then schedule a
    else schedule (pause a).
Proof.
  intros R. rewrite pause_schedule. unfold schedule.
  rewrite complete_state, complete_browser by done. cbn [interval].
  by destruct (ToBoolean _).
Qed.

Lemma tick_schedule (c : TickEnv) (a : App) :
  schedule (after (tick c a)) = schedule a
  ∨ schedule (after (tick c a)) = schedule (pause a).
Proof.
  destruct (running (state a)) eqn:R; [|left; by rewrite (tick_paused c a R)].
  destruct (completes c a) eqn:C; [|left; by rewrite (tick_counts c a R C)].
  destruct (startedISO c a) as [started|] eqn:S; [|left; by rewrite (tick_throws c a C S)].
  rewrite (tick_completes c a started C S). cbn [after].
  rewrite complete_schedule by done. rewrite !pause_schedule.
  change (schedule (elapse c a)) with (schedule a).
  change (interval (state (elapse c a))) with (interval (state a)).
  change (intervals (browser (elapse c a))) with (intervals (browser a)).
  change (settings (state (elapse c a))) with (settings (state a)).
  destruct (ToBoolean _); [by left|by right].
Qed.

Lemma applySettings_schedule (f : Form) (a : App) :
  schedule (applySettingsFromUI f a)
  = if running (state a) then schedule a else schedule (pause a).
Proof.
  unfold applySettingsFromUI.
  set (a1 := saveSettings _).
  assert (schedule a1 = schedule a ∧ schedule (pause a1) = schedule (pause a)
          ∧ running (state a1) = running (state a)) as (E1 & E2 & ->)
    by (by destruct a as [[m r t rem lp [h|] ps st hi] [pi pt] [iv nh ls]]).
  destruct (running (state a)); [done|].
  by rewrite resetTimer_schedule.
Qed.

Lemma handle_schedule (e : Event) (a : App) :
  schedule (handle e a) = schedule a
  ∨ schedule (handle e a) = schedule (pause a)
  ∨ ∃ date, schedule (handle e a) = schedule (start date a).
Proof.
  destruct e as [date| |m|c|f| |[|]]; cbn [handle].
  - destruct (running (state a)); [by right; left|right; right; eauto].
  - right; left. apply resetTimer_schedule.
  - rewrite setMode_schedule. destruct (running (state a)); [by left|by right; left].
  - destruct (tick_schedule c a) as [->| ->]; [by left|by right; left].
  - rewrite applySettings_schedule.
    destruct (running (state a)); [by left|by right; left].
  - by left.
  - right; left. rewrite resetTimer_schedule.
    by destruct a as [[m r t rem lp [h|] ps st hi] [pi pt] [iv nh ls]]; destruct r.
  - by left.
Qed.

Lemma one_schedule_ext (a b : App) :
  schedule a = schedule b → one_schedule b → one_schedule a.
Proof. unfold one_schedule, schedule. by intros [= -> ->]. Qed.

Lemma handle_one_schedule (e : Event) (a : App) :
  one_schedule a → one_schedule (handle e a).
Proof.
  intros H. destruct (handle_schedule e a) as [E|[E|[date E]]];
    apply (one_schedule_ext _ _ E);
    [done|by apply pause_one_schedule|by apply start_one_schedule].
Qed.

Lemma run_one_schedule (es : list Event) (a : App) :
  one_schedule a → one_schedule (run es a).
Proof.
  revert a. induction es as [|e es IH]; intros a H; [done|].
  rewrite run_cons. by apply IH, handle_one_schedule.
Qed.

(** C9.  Pausing twice, or starting twice, leaves the page as pausing or
    starting once does: the state, the element texts and the browser's
    interval timers are the same.  Starting a running timer changes
    nothing, so no second interval is scheduled; over any run of events
    the browser has the one interval the state holds and no other. *)
Theorem start_pause_idempotent (a : App) (d1 d2 : Z) :
  pause (pause a) = pause a
  ∧ start d2 (start d1 a) = start d1 a
  ∧ (running (state a) = true → start d1 a = a)
  ∧ schedule (start d2 (start d1 a)) = schedule (start d1 a)
  ∧ (one_schedule a → ∀ es, one_schedule (run es a)).
Proof.
  split_and!.
  - apply pause_pause.
  - apply start_start.
  - apply start_when_running.
  - by rewrite start_start.
  - intros H es. by apply run_one_schedule.
Qed.

Lemma start_pause_idempotent_witness :
  let a := start 1699999000000 (init (initial ∅)) in
  running (state a) = true
  ∧ start 1700000000000 a = a
  ∧ one_schedule a
  ∧ one_schedule (run [ClickStartPause 1700000000000; ClickStartPause 1700000001000;
                       ClickTab short; ClickReset] a).
Proof.
  intros a.
  assert (one_schedule a) as S by (vm_compute; reflexivity).
  destruct (start_pause_idempotent a 1700000000000 0) as (_ & _ & H & _ & Hrun).
  split_and!; [reflexivity|apply H; reflexivity|exact S|by apply Hrun].
Defined.

(** * The rest of the page *)

(** ** Storage round trips *)

Lemma json_stable_omap (o : gmap string value) :
  map_Forall (λ _ v, json_stable v) o →
  omap (λ x, match x with
             | VUndefined => None
             | _ => Some (json_image x)
             end) o = o.
Proof.
  intros H. apply map_eq. intros k. rewrite lookup_omap.
  destruct (o !! k) as [v|] eqn:E; [|done].
  destruct (H k v E) as [Hu Hs]. cbn. rewrite Hs. by destruct v.
Qed.

Lemma json_stable_map (l : list value) :
  Forall json_stable l →
  map (λ x, match x with
            | VUndefined => VNull
            | _ => json_image x
            end) l = l.
Proof.
  induction 1 as [|v l [Hu Hs] _ IH]; [done|].
  cbn [map]. rewrite IH, Hs. by destruct v.
Qed.

(** X1.  Saved settings load back as they are: when the settings hold
    every field of the defaults and each value survives JSON, what
    [loadSettings] reads after [saveSettings] is the settings object
    itself, whatever else the storage holds. *)
Theorem settings_round_trip (a : App) :
  map_Forall (λ _ v, json_stable v) (settings (state a)) →
  (∀ k, is_Some (defaults !! k) → is_Some (settings (state a) !! k)) →
  loadSettings (localStorage (browser (saveSettings a))) = settings (state a).
Proof.
  intros Hs Hd.
  change (localStorage (browser (saveSettings a)))
    with (<[SETTINGS_KEY := JSON_stringify (VObj (settings (state a)))]>
            (localStorage (browser a))).
  unfold loadSettings. rewrite lookup_insert_eq. unfold JSON_stringify.
  cbn [is_empty_text JSON_parse json_image spread].
  rewrite (json_stable_omap _ Hs).
  apply map_eq. intros k. rewrite lookup_union.
  destruct (settings (state a) !! k) as [v|] eqn:E.
  - by destruct (defaults !! k).
  - destruct (defaults !! k) as [d|] eqn:D; [|done].
    destruct (Hd k) as [v Hv]; [by rewrite D|]. congruence.
Qed.

Lemma settings_round_trip_witness :
  let a := applySettingsFromUI (mkForm "50" "" "20" "4" true) (init (initial ∅)) in
  loadSettings (localStorage (browser (saveSettings a))) = settings (state a).
Proof.
  intros a. apply settings_round_trip.
  - apply map_Forall_to_list. vm_compute.
    repeat (constructor; [split; [discriminate|reflexivity]|]). constructor.
  - intros k Hk.
    assert (dom defaults ⊆ dom (settings (state a))) as Hsub
      by (apply (bool_decide_unpack _); vm_compute; exact I).
    apply elem_of_dom, Hsub, elem_of_dom, Hk.
Defined.

Lemma loadHistory_saved (l : list value) (ls : gmap string text) :
  Forall json_stable l →
  loadHistory (<[HISTORY_KEY := JSON_stringify (VArr l)]> ls) = l.
Proof.
  intros H. unfold loadHistory. rewrite lookup_insert_eq. unfold JSON_stringify.
  cbn [is_empty_text JSON_parse json_image]. by apply json_stable_map.
Qed.

Lemma completed_entry_stable (c : TickEnv) (started : string) (a : App) (t : Q) :
  totalSec (state a) = Fin t → json_stable (completed_entry c started a).
Proof.
  intros T. split; [done|].
  unfold completed_entry, entry. cbn [json_image]. f_equal.
  apply json_stable_omap. rewrite T.
  repeat (apply map_Forall_insert_2; [by split|]).
  apply map_Forall_empty.
Qed.

Lemma complete_localStorage (c : TickEnv) (started : string) (a : App) :
  running (state a) = true →
  localStorage (browser (complete c started a))
  = <[HISTORY_KEY := JSON_stringify (VArr (history (state (complete c started a))))]>
      (localStorage (browser a)).
Proof.
  intros R. rewrite complete_state by done. cbn [history].
  destruct a as [[m r t rem lp iv ps st hi] [pi pt] [ivs nh ls]]. cbn [state running] in R.
  subst r. unfold complete. rewrite cap_history.
  unfold completed_entry. cbn [state on_state set_history mode totalSec history].
  destruct m; unfold saveHistory, setItem, setMode; cbn;
    destruct (ToBoolean _) eqn:E; try reflexivity;
    unfold pause; cbn; destruct iv; reflexivity.
Qed.

Lemma Forall_take_stable (n : nat) (l : list value) :
  Forall json_stable l → Forall json_stable (take n l).
Proof. apply Forall_take. Qed.

(** X2.  The history survives a reload.  [loadHistory] gives back what
    [saveHistory] wrote when every item survives JSON; so after a tick
    that completes a phase of finite length on such a history, the history
    read from [localStorage] is the history in memory, new entry
    included. *)
Theorem history_round_trip (c : TickEnv) (a : App) (started : string) (t : Q) :
  Forall json_stable (history (state a)) →
  loadHistory (localStorage (browser (saveHistory a))) = history (state a)
  ∧ (completes c a = true → startedISO c a = Some started →
     totalSec (state a) = Fin t →
     loadHistory (localStorage (browser (after (tick c a))))
     = history (state (after (tick c a)))).
Proof.
  intros H. split; [by apply loadHistory_saved|].
  intros C S T.
  rewrite (tick_completes_history c a started C S).
  rewrite (tick_completes c a started C S). cbn [after].
  rewrite complete_localStorage by exact (completes_running c a C).
  rewrite complete_state by exact (completes_running c a C). cbn [history].
  apply loadHistory_saved, Forall_take_stable. constructor; [|done].
  by apply (completed_entry_stable c started (elapse c a) t).
Qed.

Lemma history_round_trip_witness :
  let c := example_env 1500000 1700000000000 in
  loadHistory (localStorage (browser (after (tick c example_running))))
  = [completed_entry c "2023-11-14T21:48:20.000Z" example_running].
Proof.
  intros c.
  destruct (history_round_trip c example_running "2023-11-14T21:48:20.000Z" (25 * 60))
    as [_ H]; [constructor|].
  rewrite H; [|vm_compute; reflexivity..].
  rewrite (tick_completes_history c example_running "2023-11-14T21:48:20.000Z");
    [vm_compute; reflexivity|vm_compute; reflexivity..].
Defined.

(** ** Clearing the data *)

Lemma setMode_localStorage (m : Mode) (a : App) :
  localStorage (browser (setMode m a)) = localStorage (browser a).
Proof.
  destruct (running (state a)) eqn:R.
  - by rewrite setMode_running.
  - by rewrite setMode_paused, resetTimer_localStorage.
Qed.

Lemma defaults_stable : map_Forall (λ _ v, json_stable v) defaults.
Proof.
  unfold defaults.
  repeat (apply map_Forall_insert_2; [by split|]).
  apply map_Forall_empty.
Qed.

Lemma defaults_reload (ls : gmap string text) :
  loadSettings (<[SETTINGS_KEY := JSON_stringify (VObj defaults)]> ls) = defaults.
Proof.
  unfold loadSettings. rewrite lookup_insert_eq. unfold JSON_stringify.
  cbn [is_empty_text JSON_parse json_image spread].
  rewrite (json_stable_omap _ defaults_stable).
  apply (idemp (∪)).
Qed.

Lemma pause_schedule_ext (a b : App) :
  schedule a = schedule b → schedule (pause a) = schedule (pause b).
Proof. rewrite !pause_schedule. unfold schedule. by intros [= -> ->]. Qed.

(** X3.  The clear button does nothing without the confirmation.  With
    it, the page is as new: focus mode, paused, 25 minutes on the clock,
    default settings, no history, no interval scheduled; and the storage
    holds the default settings and an empty history, so that a reload of
    the page finds the same. *)
Theorem clear_data_resets (a : App) :
  handle (ClickClearData false) a = a
  ∧ state (handle (ClickClearData true) a)
    = mkState focus false (Fin (25 * 60)) (Fin (25 * 60)) None None None defaults []
  ∧ schedule (handle (ClickClearData true) a) = schedule (pause a)
  ∧ loadSettings (localStorage (browser (handle (ClickClearData true) a))) = defaults
  ∧ loadHistory (localStorage (browser (handle (ClickClearData true) a))) = [].
Proof.
  split; [done|]. cbn [handle].
  set (a1 := saveHistory _).
  assert (settings (state a1) = defaults) as Es by reflexivity.
  assert (history (state a1) = []) as Eh by reflexivity.
  assert (localStorage (browser a1)
          = <[HISTORY_KEY := JSON_stringify (VArr [])]>
              (<[SETTINGS_KEY := JSON_stringify (VObj defaults)]>
                 (delete HISTORY_KEY (delete SETTINGS_KEY (localStorage (browser a))))))
    as El by reflexivity.
  assert (schedule a1 = schedule a ∧ schedule (pause a1) = schedule (pause a)) as [E1 E2]
    by (by destruct a as [[m r t rem lp [h|] ps st hi] [pi pt] [iv nh ls]]).
  split_and!.
  - rewrite resetTimer_state. unfold modeToMinutes. cbn [settings history].
    rewrite setMode_settings, setMode_history, Es, Eh.
    assert (mul (ToNumber (get defaults "focusMin")) (Fin 60) = Fin (25 * 60)) as ->
      by (vm_compute; reflexivity).
    reflexivity.
  - rewrite resetTimer_schedule, <- E2.
    pose proof (setMode_schedule focus a1) as Hs.
    destruct (running (state a1)).
    + by apply pause_schedule_ext.
    + rewrite <- (pause_pause a1). by apply pause_schedule_ext.
  - rewrite resetTimer_localStorage, setMode_localStorage, El.
    rewrite insert_insert_ne by done. apply defaults_reload.
  - rewrite resetTimer_localStorage, setMode_localStorage, El.
    unfold loadHistory. by rewrite lookup_insert_eq.
Qed.

(** ** The theme *)

Lemma toggleTheme_theme (a : App) :
  state (toggleTheme a)
  = set_settings (<["theme" := VStr (if is_text (get (settings (state a)) "theme") "dark"
                                     then "light" else "dark")]> (settings (state a)))
                 (state a).
Proof. reflexivity. Qed.

Lemma applyTheme_toggle (a : App) :
  applyTheme (toggleTheme a)
  = if is_text (get (settings (state a)) "theme") "dark" then "light" else "dark".
Proof.
  unfold applyTheme. rewrite toggleTheme_theme. cbn [settings set_settings].
  unfold get at 1. rewrite lookup_insert_eq. cbn [from_option]. unfold id.
  by destruct (is_text _ _).
Qed.

(** X4.  The theme toggle stores [light] when the theme is [dark] and
    [dark] in every other case, touches no other setting and nothing of
    the timer, and saves the settings.  The theme shown changes exactly
    when the stored theme was one of the two texts; from the second
    toggle on it always changes. *)
Theorem toggleTheme_flips (a : App) :
  (applyTheme (toggleTheme a) ≠ applyTheme a
   ↔ is_text (get (settings (state a)) "theme") "dark"
     || is_text (get (settings (state a)) "theme") "light" = true)
  ∧ applyTheme (toggleTheme (toggleTheme a)) ≠ applyTheme (toggleTheme a)
  ∧ (∀ k, k ≠ "theme" → settings (state (toggleTheme a)) !! k = settings (state a) !! k)
  ∧ set_settings (settings (state a)) (state (toggleTheme a)) = state a
  ∧ localStorage (browser (toggleTheme a)) !! SETTINGS_KEY
    = Some (JSON_stringify (VObj (settings (state (toggleTheme a))))).
Proof.
  split_and!.
  - rewrite applyTheme_toggle. unfold applyTheme.
    destruct (get (settings (state a)) "theme") as [| | | |t| |]; cbn [is_text orb];
      try (split; [done|discriminate]).
    destruct (String.eqb t "dark") eqn:D, (String.eqb t "light") eqn:L; cbn [orb].
    + apply String.eqb_eq in D, L. congruence.
    + done.
    + done.
    + split; [done|discriminate].
  - rewrite !applyTheme_toggle.
    assert (get (settings (state (toggleTheme a))) "theme"
            = VStr (if is_text (get (settings (state a)) "theme") "dark"
                    then "light" else "dark")) as ->.
    { rewrite toggleTheme_theme. cbn [settings set_settings].
      unfold get at 1. by rewrite lookup_insert_eq. }
    by destruct (is_text (get (settings (state a)) "theme") "dark").
  - intros k Hk. rewrite toggleTheme_theme. cbn [settings set_settings].
    by rewrite lookup_insert_ne.
  - rewrite toggleTheme_theme. by destruct (state a).
  - unfold toggleTheme, saveSettings, setItem. cbn [browser localStorage].
    by rewrite lookup_insert_eq.
Qed.

Lemma toggleTheme_flips_witness :
  let a := init (initial ∅) in
  applyTheme a = "dark" ∧ applyTheme (toggleTheme a) ≠ applyTheme a
  ∧ settings (state (toggleTheme a)) !! "focusMin" = Some (VNum (Fin 25)).
Proof.
  intros a. destruct (toggleTheme_flips a) as (H1 & _ & H3 & _).
  split_and!.
  - vm_compute. reflexivity.
  - apply H1. vm_compute. reflexivity.
  - rewrite H3 by done. vm_compute. reflexivity.
Defined.

(** ** The ring *)

(** X5.  The progress of the ring is between 0 and 1 whenever the
    remaining time is between zero and the total: it is one minus the
    remaining part of the total, and a total below one second (a zero
    total among them) divides by one instead. *)
Theorem ring_progress_bounds (s : State) (r t : Q) :
  remainingSec s = Fin r → totalSec s = Fin t → in_bounds s = true →
  ∃ p, ring_progress s = Fin p
       ∧ (0 <= p)%Q ∧ (p <= 1)%Q
       ∧ (p == 1 - r / (if Qle_bool 1 t then t else 1))%Q.
Proof.
  intros Hr Ht. unfold in_bounds, ring_progress. rewrite Hr, Ht.
  intros [H0%le_Fin H1%le_Fin]%andb_prop.
  cbn [max]. set (y := if Qle_bool 1 t then t else 1%Q).
  assert (1 <= y ∧ t <= y)%Q as [Hy1 Hy2].
  { subst y. destruct (Qle_bool 1 t) eqn:E.
    - apply Qle_bool_iff in E. split; [done|apply Qle_refl].
    - apply not_true_iff_false in E. rewrite Qle_bool_iff in E.
      split; [apply Qle_refl|]. apply Qlt_le_weak. by apply Qnot_le_lt. }
  assert ((if Qle_bool 1 t then Fin t else Fin 1) = Fin y) as ->
    by (subst y; by destruct (Qle_bool 1 t)).
  cbn [num_div]. assert (Qeq_bool y 0 = false) as ->.
  { apply not_true_iff_false. intros E%Qeq_bool_eq. rewrite E in Hy1. lra. }
  cbn [sub]. exists (1 - r / y)%Q.
  assert (0 <= r / y)%Q by (apply Qle_shift_div_l; lra).
  assert (r / y <= 1)%Q by (apply Qle_shift_div_r; lra).
  split_and!; [done|lra|lra|reflexivity].
Qed.

Lemma ring_progress_bounds_witness :
  ∃ p, ring_progress (state (init (initial ∅))) = Fin p ∧ (p == 0)%Q.
Proof.
  destruct (ring_progress_bounds (state (init (initial ∅))) 1500 1500)
    as (p & Hp & _ & _ & E).
  - vm_compute. reflexivity.
  - vm_compute. reflexivity.
  - vm_compute. reflexivity.
  - exists p. split; [exact Hp|]. rewrite E. vm_compute. reflexivity.
Defined.

(** ** The time text *)

Lemma string_length_app (s t : string) :
  String.length (String.append s t) = (String.length s + String.length t)%nat.
Proof. induction s as [|c s IH]; [done|]. simpl. by rewrite IH. Qed.


Lemma pad0_two_digits (x : Z) :
  (0 <= x < 100)%Z → String.length (pad0 2 x) = 2%nat.
Proof.
  intros H.
  assert (forallb (λ x, (String.length (pad0 2 x) =? 2)%nat) (seqZ 0 100) = true) as F
    by (vm_compute; reflexivity).
  rewrite forallb_forall in F. apply Nat.eqb_eq, F, list_elem_of_In, elem_of_seqZ. lia.
Qed.




(** ** The day key *)

Lemma string_app_inj (a a' b b' : string) :
  String.length a = String.length a' →
  String.append a b = String.append a' b' → a = a' ∧ b = b'.
Proof.
  revert a'. induction a as [|c a IH]; intros [|c' a']; try discriminate.
  - done.
  - cbn. intros [= L] [= -> E]. destruct (IH a' L E) as [-> ->]. done.
Qed.

Lemma year_four_digits (y : Z) :
  (1000 <= y <= 9999)%Z → String.length (String_of_Z y) = 4%nat.
Proof.
  intros H.
  assert (forallb (λ y, (String.length (String_of_Z y) =? 4)%nat) (seqZ 1000 9000) = true)
    as F by (vm_compute; reflexivity).
  rewrite forallb_forall in F. apply Nat.eqb_eq, F, list_elem_of_In, elem_of_seqZ. lia.
Qed.

Lemma pad0_two_inj (x y : Z) :
  (0 <= x < 100)%Z → (0 <= y < 100)%Z → pad0 2 x = pad0 2 y → x = y.
Proof.
  intros Hx Hy E.
  assert (forallb (λ x, forallb (λ y, implb (String.eqb (pad0 2 x) (pad0 2 y)) (x =? y)%Z)
                                (seqZ 0 100)) (seqZ 0 100) = true) as F
    by (vm_compute; reflexivity).
  rewrite forallb_forall in F.
  assert (In x (seqZ 0 100)) as Ix by (apply list_elem_of_In, elem_of_seqZ; lia).
  assert (In y (seqZ 0 100)) as Iy by (apply list_elem_of_In, elem_of_seqZ; lia).
  specialize (F x Ix). rewrite forallb_forall in F. specialize (F y Iy).
  apply String.eqb_eq in E. rewrite E in F. by apply Z.eqb_eq.
Qed.

(** X7.  For calendar dates with a four-digit year the day key has ten
    characters, and two dates have the same key only when they are the
    same date: comparing the keys of history items compares their days. *)
Theorem todayKey_inj (d d' : LocalDate) :
  plain_date d = true → plain_date d' = true →
  String.length (todayKey d) = 10%nat
  ∧ (todayKey d = todayKey d' → d = d').
Proof.
  unfold plain_date. rewrite !andb_true_iff, !Z.leb_le.
  intros (((((Y1 & Y2) & M1) & M2) & D1) & D2) (((((Y1' & Y2') & M1') & M2') & D1') & D2').
  assert (∀ e, todayKey e
               = String.append (String_of_Z (getFullYear e))
                   (String.append "-"
                      (String.append (pad0 2 (getMonth e + 1))
                         (String.append "-" (pad0 2 (getDate e)))))) as K by reflexivity.
  split.
  - rewrite K, !string_length_app, year_four_digits, !pad0_two_digits by lia. reflexivity.
  - rewrite !K. intros E.
    apply string_app_inj in E as [Ey E]; [|by rewrite !year_four_digits by lia].
    injection E as E. change (String.append "" ?x) with x in E.
    apply string_app_inj in E as [Em E]; [|by rewrite !pad0_two_digits by lia].
    injection E as E. change (String.append "" ?x) with x in E.
    apply (inj pretty) in Ey. apply pad0_two_inj in Em; [|lia..].
    apply pad0_two_inj in E; [|lia..].
    destruct d, d'. cbn in *. f_equal; lia.
Qed.

Lemma todayKey_inj_witness :
  todayKey (mkLocalDate 2023 10 14) = "2023-11-14"
  ∧ todayKey (mkLocalDate 2023 10 14) ≠ todayKey (mkLocalDate 2023 0 14).
Proof.
  destruct (todayKey_inj (mkLocalDate 2023 10 14) (mkLocalDate 2023 0 14)) as [_ H];
    [reflexivity..|].
  split; [vm_compute; reflexivity|]. intros E. by specialize (H E).
Defined.

(** ** The bottom cards *)

Lemma member_property (item : value) (k : string) :
  nullish item = false → member item k = Some (property item k).
Proof. by destruct item. Qed.

Lemma tally_item_sound (t : string) (item : value) (acc : Tally) :
  nullish item = false →
  tally_item t item acc
  = Some (if is_focus_of t item
          then mkTally (S (focusSessions acc))
                       (plus_duration (focusSeconds acc) (property item "duration"))
                       (match lastFocus acc with
                        | Some l => Some l
                        | None => Some item
                        end)
          else acc).
Proof.
  intros N. unfold tally_item, is_focus_of. rewrite !member_property by done.
  destruct (is_text (property item "day") t); [|done].
  by destruct (is_text (property item "mode") "focus").
Qed.

Lemma tally_item_null (t : string) (item : value) (acc : Tally) :
  nullish item = true → tally_item t item acc = None.
Proof. by destruct item. Qed.

Lemma tally_none (t : string) (items : list value) (acc : Tally) :
  tally t items acc = None ↔ forallb (λ v, negb (nullish v)) items = false.
Proof.
  revert acc. induction items as [|item items IH]; intros acc; cbn [tally forallb].
  - done.
  - destruct (nullish item) eqn:N.
    + by rewrite tally_item_null.
    + rewrite tally_item_sound by done. cbn [negb andb]. apply IH.
Qed.

Lemma tally_sound (t : string) (items : list value) (acc : Tally) :
  forallb (λ v, negb (nullish v)) items = true →
  tally t items acc
  = Some (mkTally
            (focusSessions acc + length (List.filter (is_focus_of t) items))
            (foldl (λ s item, plus_duration s (property item "duration"))
                   (focusSeconds acc) (List.filter (is_focus_of t) items))
            (match lastFocus acc with
             | Some l => Some l
             | None => head (List.filter (is_focus_of t) items)
             end)).
Proof.
  revert acc. induction items as [|item items IH]; intros acc; cbn [tally forallb List.filter].
  - intros _. rewrite Nat.add_0_r. by destruct acc as [n s [l|]].
  - intros [N%negb_true_iff H]%andb_prop.
    rewrite tally_item_sound, IH by done.
    destruct (is_focus_of t item); [|done].
    cbn [focusSessions focusSeconds lastFocus length foldl head].
    f_equal. f_equal; [lia|]. by destruct (lastFocus acc).
Qed.


Lemma updateBottom_none (today : LocalDate) (a : App) :
  updateBottom today a = None ↔ sound_history a = false.
Proof.
  unfold updateBottom, sound_history.
  rewrite <- (tally_none (todayKey today) _ (mkTally 0 (Some (Fin 0)) None)).
  by destruct (tally _ _ _).
Qed.

Lemma updateBottom_done (today : LocalDate) (a : App) (b : Bottom) :
  updateBottom today a = Some b →
  goalDone b = length (List.filter (is_focus_of (todayKey today)) (history (state a)))
  ∧ lastSession b = head (List.filter (is_focus_of (todayKey today)) (history (state a))).
Proof.
  intros U. destruct (sound_history a) eqn:S.
  - unfold updateBottom in U. unfold sound_history in S.
    rewrite (tally_sound _ _ _ S) in U. by injection U as <-.
  - apply (updateBottom_none today) in S. congruence.
Qed.



Lemma updateBottom_goal (today : LocalDate) (a : App) (b : Bottom) :
  updateBottom today a = Some b →
  let goal := ToNumber (get (settings (state a)) "goalSessions") in
  let n := of_Z (Z.of_nat (goalDone b)) in
  fill_pct b = max (Fin 0) (min (Fin 100) (mul (num_div n (max (Fin 1) goal)) (Fin 100)))
  ∧ goal_remaining b = max (Fin 0) (sub goal n).
Proof.
  unfold updateBottom. destruct (tally _ _ _) as [r|]; [|done]. by intros [= <-].
Qed.

(** X9.  With a goal of at least one session, the goal bar is filled by
    the share of the goal that is done, in percent and never beyond 100,
    and the hint counts the sessions still to do, never below zero. *)
Theorem goal_bar (today : LocalDate) (a : App) (b : Bottom) (g : Q) :
  updateBottom today a = Some b →
  get (settings (state a)) "goalSessions" = VNum (Fin g) → (1 <= g)%Q →
  let n := inject_Z (Z.of_nat (goalDone b)) in
  ∃ p r,
    fill_pct b = Fin p ∧ goal_remaining b = Fin r
    ∧ (0 <= p)%Q ∧ (p <= 100)%Q
    ∧ ((n <= g)%Q → (p == n / g * 100)%Q ∧ (r == g - n)%Q)
    ∧ ((g <= n)%Q → (p == 100)%Q ∧ (r == 0)%Q).
Proof.
  intros U G Hg n. destruct (updateBottom_goal today a b U) as [-> ->].
  rewrite G. change (ToNumber (VNum (Fin g))) with (Fin g).
  unfold of_Z. fold n.
  assert (0 <= n)%Q as Hn.
  { subst n. change 0%Q with (inject_Z 0). rewrite <- Zle_Qle. lia. }
  assert (max (Fin 1) (Fin g) = Fin g) as ->.
  { cbn [max]. by assert (Qle_bool 1 g = true) as -> by (by apply Qle_bool_iff). }
  cbn [num_div]. assert (Qeq_bool g 0 = false) as ->.
  { apply not_true_iff_false. intros E%Qeq_bool_eq. rewrite E in Hg. lra. }
  cbn [mul sub min max].
  assert (0 <= n / g)%Q as Hd by (apply Qle_shift_div_l; lra).
  assert ((n <= g)%Q → (n / g <= 1)%Q) as Hle by (intros; apply Qle_shift_div_r; lra).
  assert ((g <= n)%Q → (1 <= n / g)%Q) as Hge by (intros; apply Qle_shift_div_l; lra).
  destruct (Qle_bool 100 (n / g * 100)) eqn:E1; cbn [max].
  - apply Qle_bool_iff in E1. change (Qle_bool 0 100) with true. cbn iota.
    destruct (Qle_bool 0 (g - n)) eqn:E2.
    + apply Qle_bool_iff in E2. exists 100%Q, (g - n)%Q.
      split_and!; try done; try lra; intros H; try specialize (Hle H); split; lra.
    + apply not_true_iff_false in E2. rewrite Qle_bool_iff in E2.
      exists 100%Q, 0%Q.
      split_and!; try done; try lra; intros H; try specialize (Hle H); split; lra.
  - apply not_true_iff_false in E1. rewrite Qle_bool_iff in E1.
    assert (Qle_bool 0 (n / g * 100) = true) as -> by (apply Qle_bool_iff; lra).
    assert (¬ (g <= n)%Q) as Hlt by (intros H; specialize (Hge H); lra).
    assert (Qle_bool 0 (g - n) = true) as -> by (apply Qle_bool_iff; lra).
    exists (n / g * 100)%Q, (g - n)%Q.
    split_and!; try done; try lra; intros H; try specialize (Hle H); split; lra.
Qed.

Lemma goal_bar_witness :
  let a := after (tick (example_env 1500000 1700000000000) example_running) in
  ∃ b p r, updateBottom (mkLocalDate 2023 10 14) a = Some b
           ∧ goalDone b = 1%nat
           ∧ fill_pct b = Fin p ∧ (p == 25 # 2)%Q
           ∧ goal_remaining b = Fin r ∧ (r == 7)%Q.
Proof.
  intros a.
  destruct (updateBottom (mkLocalDate 2023 10 14) a) as [b|] eqn:U;
    [|vm_compute in U; discriminate].
  assert (goalDone b = 1%nat) as D.
  { destruct (updateBottom_done (mkLocalDate 2023 10 14) a b U) as [-> _].
    vm_compute. reflexivity. }
  destruct (goal_bar (mkLocalDate 2023 10 14) a b 8 U) as (p & r & Hp & Hr & _ & _ & H & _).
  - vm_compute. reflexivity.
  - vm_compute. discriminate.
  - exists b, p, r. rewrite D in H. destruct H as [E1 E2]; [vm_compute; discriminate|].
    split_and!; [reflexivity|exact D|exact Hp| |exact Hr| ].
    + rewrite E1. vm_compute. reflexivity.
    + rewrite E2. vm_compute. reflexivity.
Defined.

(** ** The handlers with [updateBottom] in place *)

Lemma complete_page_split (c : TickEnv) (today : LocalDate) (started : string) (a : App) :
  complete_page c today started a
  = match updateBottom today (log_entry c started a) with
    | None => Throws "TypeError" (log_entry c started a)
    | Some _ => Returns (complete c started a)
    end.
Proof.
  unfold complete_page, complete, log_entry, completed_entry.
  rewrite !cap_history. reflexivity.
Qed.

Lemma sound_history_log (c : TickEnv) (started : string) (a : App) :
  sound_history (log_entry c started a)
  = forallb (λ v, negb (nullish v)) (take 199 (history (state a))).
Proof. reflexivity. Qed.


Lemma tick_page_split (c : TickEnv) (today : LocalDate) (a : App) (started : string) :
  completes c a = true → startedISO c a = Some started →
  tick_page c today a
  = match updateBottom today (log_entry c started (elapse c a)) with
    | None => Throws "TypeError" (log_entry c started (elapse c a))
    | Some _ => tick c a
    end.
Proof.
  intros C S. rewrite (tick_completes c a started C S).
  unfold tick_page. unfold completes in C. apply andb_prop in C as [-> ->].
  rewrite startedISO_elapse, S. apply complete_page_split.
Qed.







Lemma completes_nonpositive (c : TickEnv) (a : App) (r : Q) :
  running (state a) = true → remainingSec (state a) = Fin r →
  (r - elapsed c a <= 0)%Q → completes c a = true.
Proof.
  intros Hr R H. unfold completes. rewrite Hr, elapse_state.
  cbn [remainingSec set_remainingSec andb].
  rewrite R. fold (elapsed c a). cbn [sub]. by apply le_Fin.
Qed.

(** X11.  With a [null] among the first 199 items of the history, a
    completing tick logs and saves its entry and is then left by the
    [TypeError] of [updateBottom]: the mode does not advance, the timer
    stays running and the remaining time stays at zero or below, so that
    the next tick completes again and logs the phase once more. *)
Theorem tick_page_corrupt (c c2 : TickEnv) (today : LocalDate) (a : App)
    (started : string) (r : Q) :
  completes c a = true → startedISO c a = Some started →
  remainingSec (state a) = Fin r →
  forallb (λ v, negb (nullish v)) (take 199 (history (state a))) = false →
  let a' := log_entry c started (elapse c a) in
  tick_page c today a = Throws "TypeError" a'
  ∧ mode (state a') = mode (state a)
  ∧ running (state a') = true
  ∧ totalSec (state a') = totalSec (state a)
  ∧ remainingSec (state a') = Fin (r - elapsed c a)
  ∧ (r - elapsed c a <= 0)%Q
  ∧ history (state a') = take 200 (completed_entry c started a :: history (state a))
  ∧ localStorage (browser a') !! HISTORY_KEY
    = Some (JSON_stringify (VArr (history (state a'))))
  ∧ (clock_ahead c2 a' = true → completes c2 a' = true).
Proof.
  intros C S R N a'.
  assert (running (state a) = true) as Hrun by exact (completes_running c a C).
  assert (r - elapsed c a <= 0)%Q as Hneg.
  { unfold completes in C. rewrite Hrun, elapse_state in C.
    cbn [andb remainingSec set_remainingSec] in C. rewrite R in C.
    fold (elapsed c a) in C. by apply le_Fin in C. }
  assert (remainingSec (state a') = Fin (r - elapsed c a)) as R'.
  { subst a'. unfold log_entry. cbn [saveHistory setItem state on_state set_history remainingSec].
    rewrite elapse_state. cbn [remainingSec set_remainingSec]. by rewrite R. }
  split_and!; try done.
  - rewrite (tick_page_split c today a started C S).
    destruct (updateBottom today _) eqn:U; [|done].
    assert (sound_history (log_entry c started (elapse c a)) = false) as F
      by (by rewrite sound_history_log).
    apply (updateBottom_none today) in F. congruence.
  - unfold a', log_entry, saveHistory, setItem. cbn [browser localStorage].
    by rewrite lookup_insert_eq.
  - intros K. apply (completes_nonpositive c2 a' (r - elapsed c a)); [done|done|].
    pose proof (elapsed_nonneg c2 a' K). lra.
Qed.

Lemma tick_page_corrupt_witness :
  let a := on_state (set_history [VNull]) example_running in
  let c := example_env 1500000 1700000000000 in
  let c2 := example_env 1500250 1700000000250 in
  let today := mkLocalDate 2023 10 14 in
  let started := "2023-11-14T21:48:20.000Z" in
  tick_page c today a = Throws "TypeError" (log_entry c started (elapse c a))
  ∧ completes c2 (log_entry c started (elapse c a)) = true.
Proof.
  intros a c c2 today started.
  assert (completes c a = true) as H1 by (vm_compute; reflexivity).
  assert (startedISO c a = Some started) as H2 by (vm_compute; reflexivity).
  assert (remainingSec (state a) = Fin (1500000 # 1000)) as H3 by (vm_compute; reflexivity).
  assert (forallb (λ v, negb (nullish v)) (take 199 (history (state a))) = false)
    as H4 by (vm_compute; reflexivity).
  assert (clock_ahead c2 (log_entry c started (elapse c a)) = true)
    as H5 by (vm_compute; reflexivity).
  clearbody a c c2 today started.
  destruct (tick_page_corrupt c c2 today a started (1500000 # 1000) H1 H2 H3 H4)
    as (E & _ & _ & _ & _ & _ & _ & _ & Hc).
  exact (conj E (Hc H5)).
Defined.

(** ** A completed phase on the bottom cards *)






(** ** The history list *)





(** ** Changing the mode while the timer is paused *)

Lemma setMode_twice (m : Mode) (a : App) :
  running (state a) = false → setMode m (setMode m a) = setMode m a.
Proof.
  destruct a as [[m0 r t rem lp [h|] ps st hi] [pi pt] [iv nh ls]]; cbn [state running];
    intros ->; destruct m; reflexivity.
Qed.

(** X14.  On a paused timer with settings in their ranges, [setMode]
    starts the chosen mode afresh: total and remaining seconds are the
    minutes of that mode times 60, the start of the phase and the last
    clock reading are cleared, the timer stays paused.  The remaining time
    of the phase that was paused is gone, also when the tab clicked is the
    one of the current mode, where [setMode] is a reset.  A second click
    on the same tab changes nothing more. *)
Theorem setMode_while_paused (m : Mode) (a : App) :
  running (state a) = false → valid_settings (settings (state a)) = true →
  let a1 := setMode m a in
  mode (state a1) = m
  ∧ running (state a1) = false
  ∧ phaseStartISO (state a1) = None
  ∧ lastPerf (state a1) = None
  ∧ phaseText (el a1) = modeLabel m
  ∧ settings (state a1) = settings (state a)
  ∧ history (state a1) = history (state a)
  ∧ (∃ q, modeToMinutes a m = VNum (Fin q) ∧ (1 <= q)%Q ∧ (q <= mode_limit m)%Q
          ∧ totalSec (state a1) = Fin (q * 60)
          ∧ remainingSec (state a1) = Fin (q * 60))
  ∧ setMode (mode (state a)) a = resetTimer true a
  ∧ setMode m a1 = a1.
Proof.
  intros R V a1. subst a1.
  split_and!; try (by apply setMode_twice);
    try (rewrite (setMode_paused m a R), ?resetTimer_state; reflexivity).
  - rewrite (setMode_paused m a R).
    by destruct a as [[m0 r t rem lp [h|] ps st hi] [pi pt] [iv nh ls]].
  - destruct (valid_minutes a m V) as (q & E & Hlo & Hhi).
    exists q. rewrite (setMode_paused m a R), resetTimer_state.
    cbn [totalSec remainingSec mode state on_state set_mode].
    assert (modeToMinutes (on_state (set_mode m) a) m = modeToMinutes a m) as -> by reflexivity.
    rewrite E. by cbn.
  - rewrite (setMode_paused _ a R). by destruct a as [[]].
Qed.

Lemma setMode_while_paused_witness :
  let a := handle (ClickStartPause 1699998600000) example_running in
  remainingSec (state (setMode focus a)) = Fin (25 * 60)
  ∧ totalSec (state (setMode short a)) = Fin (5 * 60).
Proof.
  intros a.
  assert (running (state a) = false) as R by (vm_compute; reflexivity).
  assert (valid_settings (settings (state a)) = true) as V by (vm_compute; reflexivity).
  assert (modeToMinutes a focus = VNum (Fin 25)) as Ef by (vm_compute; reflexivity).
  assert (modeToMinutes a short = VNum (Fin 5)) as Es by (vm_compute; reflexivity).
  clearbody a. split.
  - destruct (setMode_while_paused focus a R V)
      as (_ & _ & _ & _ & _ & _ & _ & (q & E & _ & _ & _ & Hr) & _).
    rewrite Hr. rewrite Ef in E. by injection E as <-.
  - destruct (setMode_while_paused short a R V)
      as (_ & _ & _ & _ & _ & _ & _ & (q & E & _ & _ & Ht & _) & _).
    rewrite Ht. rewrite Es in E. by injection E as <-.
Defined.

(** ** The settings form and the countdown *)



(** ** Pausing and resuming *)

Lemma resume_state (d : Z) (a : App) :
  ∃ h t, state (start d (pause a))
         = set_interval (Some h) (set_phaseStartISO t (set_running true (state a))).
Proof.
  assert (running (state (pause a)) = false) as R by (by rewrite pause_state).
  rewrite (start_state d _ R), pause_state. eexists _, _. reflexivity.
Qed.

(** X16.  [pause] keeps the clock reading of the last tick, and [start]
    does not renew it.  So the first tick after a resume takes off the
    whole time since the last tick before the pause, the time spent paused
    included: the countdown jumps by the length of the pause, and a pause
    longer than the remaining time ends the phase at that first tick. *)
Theorem resume_counts_pause (d : Z) (c : TickEnv) (a : App) (p r : Q) :
  lastPerf (state a) = Some p → remainingSec (state a) = Fin r →
  let a1 := start d (pause a) in
  let gone := ((perf_now c - p) / 1000)%Q in
  running (state a1) = true
  ∧ lastPerf (state a1) = Some p
  ∧ remainingSec (state a1) = Fin r
  ∧ elapsed c a1 = gone
  ∧ ((0 < r - gone)%Q →
     state (after (tick c a1))
     = set_remainingSec (Fin (r - gone)) (set_lastPerf (Some (perf_now c)) (state a1)))
  ∧ ((r - gone <= 0)%Q → completes c a1 = true).
Proof.
  intros L R a1 gone. subst a1.
  destruct (resume_state d a) as (h & t & E).
  assert (running (state (start d (pause a))) = true) as Hr by (by rewrite E).
  assert (lastPerf (state (start d (pause a))) = Some p) as Hl by (by rewrite E).
  assert (remainingSec (state (start d (pause a))) = Fin r) as Hrem by (by rewrite E).
  assert (elapsed c (start d (pause a)) = gone) as He by (by apply elapsed_since).
  split_and!; try done.
  - intros H. rewrite <- He. apply tick_counts_state; [done|done|by rewrite He].
  - intros H. apply (completes_nonpositive c _ r); [done|done|by rewrite He].
Qed.

Lemma resume_counts_pause_witness :
  let a := example_running in
  let c := example_env 600000 1699999100000 in
  let c2 := example_env 1500000 1700000000000 in
  let a1 := start 1699999000000 (pause a) in
  state (after (tick c a1))
  = set_remainingSec (Fin ((1500000 # 1000) - (perf_now c - 0) / 1000))
                     (set_lastPerf (Some (perf_now c)) (state a1))
  ∧ completes c2 a1 = true.
Proof.
  intros a c c2 a1.
  assert (lastPerf (state a) = Some 0%Q) as H1 by (vm_compute; reflexivity).
  assert (remainingSec (state a) = Fin (1500000 # 1000)) as H2 by (vm_compute; reflexivity).
  assert (0 < (1500000 # 1000) - (perf_now c - 0) / 1000)%Q as H3 by (vm_compute; reflexivity).
  assert ((1500000 # 1000) - (perf_now c2 - 0) / 1000 <= 0)%Q as H4
    by (vm_compute; discriminate).
  subst a1. clearbody a c c2. split.
  - destruct (resume_counts_pause 1699999000000 c a 0 (1500000 # 1000) H1 H2)
      as (_ & _ & _ & _ & Ht & _).
    exact (Ht H3).
  - destruct (resume_counts_pause 1699999000000 c2 a 0 (1500000 # 1000) H1 H2)
      as (_ & _ & _ & _ & _ & Hc).
    exact (Hc H4).
Defined.

(** ** The start of the next phase *)



(** ** The long break *)

Lemma setMode_mode (m : Mode) (a : App) : mode (state (setMode m a)) = m.
Proof.
  destruct (running (state a)) eqn:R.
  - by rewrite setMode_running.
  - by rewrite setMode_paused, resetTimer_state.
Qed.

Lemma tick_mode (c : TickEnv) (a : App) :
  mode (state (after (tick c a)))
  = match logged c a with
    | Some _ => next_mode (mode (state a))
    | None => mode (state a)
    end.
Proof.
  destruct (completes c a) eqn:C.
  - destruct (startedISO c a) as [started|] eqn:S.
    + rewrite (logged_completes c a started C S).
      by rewrite (tick_completes_state c a started C S).
    + rewrite (logged_throws c a S), (tick_throws c a C S). reflexivity.
  - rewrite (logged_not_completes c a C).
    destruct (running (state a)) eqn:R.
    + by rewrite (tick_counts c a R C).
    + by rewrite (tick_paused c a R).
Qed.

Lemma handle_mode (e : Event) (a : App) :
  mode (state (handle e a))
  = match e with
    | ClickTab m => m
    | IntervalTick c =>
        match logged c a with
        | Some _ => next_mode (mode (state a))
        | None => mode (state a)
        end
    | ClickClearData true => focus
    | _ => mode (state a)
    end.
Proof.
  destruct e as [date| |m|c|f| |[|]]; cbn [handle].
  - destruct (running (state a)) eqn:R; [by rewrite pause_state|by rewrite start_state].
  - by rewrite resetTimer_state.
  - apply setMode_mode.
  - apply tick_mode.
  - destruct (running (state a)) eqn:R.
    + by rewrite applySettings_running.
    + by rewrite applySettings_paused.
  - by destruct (toggleTheme_state a) as [t ->].
  - by rewrite resetTimer_state.
  - done.
Qed.

Lemma logged_mode (c : TickEnv) (a : App) (en : value) :
  logged c a = Some en → property en "mode" = VStr (mode_name (mode (state a))).
Proof.
  unfold logged. destruct (completes c a); [|done].
  destruct (startedISO c a) as [started|]; [|done]. intros [= <-].
  by destruct (completed_entry_fields c started a) as (-> & _).
Qed.

(** X18.  No handler but the click on the tab of the long break leads to
    the long break: a completed focus phase is followed by a short break
    however many came before.  Over a run of events without such a click,
    from a mode that is not the long break, the mode is never the long
    break and no entry of a long break is logged. *)
Theorem long_break_only_by_tab (es : list Event) (a : App) :
  forallb (λ e, negb (picks_long e)) es = true → mode (state a) ≠ long →
  mode (state (run es a)) ≠ long
  ∧ Forall (λ en, property en "mode" ≠ VStr "long") (logged_in es a).
Proof.
  revert a. induction es as [|e es IH]; intros a H M; [by split|].
  cbn [forallb] in H. apply andb_prop in H as [He Hes].
  assert (mode (state (handle e a)) ≠ long) as M'.
  { rewrite handle_mode. destruct e as [| |[| |]|c| | |[|]]; try done.
    destruct (logged c a); [|done]. by destruct (mode (state a)). }
  destruct (IH (handle e a) Hes M') as [IH1 IH2].
  rewrite run_cons. split; [exact IH1|]. cbn [logged_in].
  apply Forall_app. split; [|exact IH2].
  destruct e as [| | |c| | |]; try apply Forall_nil_2.
  destruct (logged c a) as [en|] eqn:L; [|apply Forall_nil_2].
  apply Forall_cons. split; [|apply Forall_nil_2].
  rewrite (logged_mode c a en L). by destruct (mode (state a)).
Qed.

Lemma long_break_only_by_tab_witness :
  let es := [ClickStartPause 1699998500000; IntervalTick (example_env 0 1699998500000);
             IntervalTick (example_env 1500000 1700000000000); ClickTab focus;
             ClickStartPause 1700000100000;
             IntervalTick (example_env 1600000 1700000100000);
             IntervalTick (example_env 3100000 1700001600000)] in
  mode (state (run es (init (initial ∅)))) ≠ long
  ∧ Forall (λ en, property en "mode" ≠ VStr "long") (logged_in es (init (initial ∅))).
Proof.
  intros es.
  assert (forallb (λ e, negb (picks_long e)) es = true) as H by (vm_compute; reflexivity).
  assert (mode (state (init (initial ∅))) ≠ long) as M by (vm_compute; discriminate).
  clearbody es.
  exact (long_break_only_by_tab es (init (initial ∅)) H M).
Defined.

(** ** The start of the page *)



(** ** The settings dialog *)

Lemma digits_read_back_upto :
  forallb (λ n, match StringToNumber (String_of_Z (Z.of_nat n)) with
                | Fin p => Qeq_bool p (inject_Z (Z.of_nat n))
                           && negb (String.eqb (String_of_Z (Z.of_nat n)) "")
                | _ => false
                end) (seq 1 120) = true.
Proof. vm_compute. reflexivity. Qed.

Lemma digits_read_back (z : Z) (d : Q) :
  (1 ≤ z ≤ 120)%Z →
  ∃ p, Number_or (String_of_Z z) d = Fin p ∧ (p == inject_Z z)%Q.
Proof.
  intros Hz. pose proof digits_read_back_upto as H.
  rewrite forallb_forall in H. specialize (H (Z.to_nat z)).
  rewrite Z2Nat.id in H by lia.
  assert (In (Z.to_nat z) (seq 1 120)) as Hin by (apply in_seq; lia).
  specialize (H Hin). unfold Number_or.
  destruct (StringToNumber (String_of_Z z)) as [| |p|]; try discriminate.
  apply andb_prop in H as [Hp ->%negb_true_iff].
  exists p. split; [done|]. by apply Qeq_bool_eq.
Qed.

Lemma clamp_inside (p : Q) (hi : Z) :
  (1 <= p)%Q → (p <= inject_Z hi)%Q →
  ∃ x, clamp (Fin p) (Fin 1) (Fin (inject_Z hi)) = Fin x ∧ (x == p)%Q.
Proof.
  intros Hlo Hhi. unfold clamp. cbn [min].
  destruct (Qle_bool (inject_Z hi) p) eqn:E1; cbn [max].
  - apply Qle_bool_iff in E1.
    assert (Qle_bool 1 (inject_Z hi) = true) as -> by (apply Qle_bool_iff; lra).
    exists (inject_Z hi). split; [done|lra].
  - assert (Qle_bool 1 p = true) as -> by (by apply Qle_bool_iff).
    exists p. split; [done|reflexivity].
Qed.

Lemma field_round_trip (hi : Z) (d : Q) (v : value) :
  (hi ≤ 120)%Z → whole_within 1 hi v = true →
  ∃ s, input_text v = Some s
       ∧ same_number (VNum (clamp (Number_or s d) (Fin 1) (Fin (inject_Z hi)))) v.
Proof.
  intros Hhi W. destruct v as [| | |[| |q|]| | |]; try discriminate.
  cbn [whole_within] in W.
  apply andb_prop in W as [[Hq Hlo%Z.leb_le]%andb_prop Hup%Z.leb_le].
  exists (String_of_Z (Qfloor q)). split.
  - cbn [input_text String_of_number]. rewrite Hq. cbn [andb].
    assert ((Z.abs (Qfloor q) <? 10 ^ 21)%Z = true) as -> by (apply Z.ltb_lt; lia).
    reflexivity.
  - apply Qeq_bool_eq in Hq.
    destruct (digits_read_back (Qfloor q) d) as (p & -> & Hp); [lia|].
    assert (1 <= p)%Q as H1.
    { rewrite Hp. change 1%Q with (inject_Z 1). rewrite <- Zle_Qle. lia. }
    assert (p <= inject_Z hi)%Q as H2 by (rewrite Hp, <- Zle_Qle; lia).
    destruct (clamp_inside p hi H1 H2) as (x & -> & Hx).
    exists x, q. split_and!; [done|done|]. rewrite Hx, Hp. symmetry. exact Hq.
Qed.

Lemma get_insert_eq (o : gmap string value) (k : string) (v : value) :
  get (<[k := v]> o) k = v.
Proof. unfold get. by rewrite lookup_insert_eq. Qed.

Lemma get_insert_ne (o : gmap string value) (k k' : string) (v : value) :
  k ≠ k' → get (<[k := v]> o) k' = get o k'.
Proof. intros N. unfold get. by rewrite lookup_insert_ne. Qed.

(** X20.  With whole numbers within their ranges in the settings, the
    settings dialog opened and closed with nothing changed keeps every
    number: [syncSettingsUI] writes each as its digits and
    [applySettingsFromUI] reads the same number back.  The theme stays,
    and [autoStart] becomes the boolean it counted as. *)
Theorem settings_dialog_round_trip (a : App) :
  whole_settings (settings (state a)) = true →
  ∃ f, syncSettingsUI a = Some f
       ∧ let o := settings (state a) in
         let o' := settings (state (applySettingsFromUI f a)) in
         same_number (get o' "focusMin") (get o "focusMin")
         ∧ same_number (get o' "shortMin") (get o "shortMin")
         ∧ same_number (get o' "longMin") (get o "longMin")
         ∧ same_number (get o' "goalSessions") (get o "goalSessions")
         ∧ get o' "autoStart" = VBool (ToBoolean (get o "autoStart"))
         ∧ get o' "theme" = get o "theme"
         ∧ valid_settings o' = true.
Proof.
  unfold whole_settings.
  intros [[[Wf Ws]%andb_prop Wl]%andb_prop Wg]%andb_prop.
  destruct (field_round_trip 120 25 _ ltac:(lia) Wf) as (sf & Ef & Hf).
  destruct (field_round_trip 60 5 _ ltac:(lia) Ws) as (ss & Es & Hs).
  destruct (field_round_trip 90 15 _ ltac:(lia) Wl) as (sl & El & Hl).
  destruct (field_round_trip 30 8 _ ltac:(lia) Wg) as (sg & Eg & Hg).
  exists (mkForm sf ss sl sg (ToBoolean (get (settings (state a)) "autoStart"))).
  split; [unfold syncSettingsUI; by rewrite Ef, Es, El, Eg|].
  cbn zeta. rewrite applySettings_settings. unfold form_settings.
  cbn [focusInput shortInput longInput goalInput autoStartToggle].
  assert (∀ lo hi v w, same_number v w → whole_within lo hi w = true
                       → (1 <= inject_Z lo)%Q → within 1 (inject_Z hi) v = true) as Hw.
  { intros lo hi v w (p & q & -> & -> & Hpq) W Hlo. cbn [whole_within] in W.
    apply andb_prop in W as [[Hq Hlow%Z.leb_le]%andb_prop Hup%Z.leb_le].
    apply Qeq_bool_eq in Hq. cbn [within].
    rewrite Zle_Qle in Hlow, Hup.
    apply andb_true_intro. split; apply Qle_bool_iff; rewrite Hpq, Hq; lra. }
  split_and!.
  - by rewrite !get_insert_ne, get_insert_eq by done.
  - by rewrite !get_insert_ne, get_insert_eq by done.
  - by rewrite !get_insert_ne, get_insert_eq by done.
  - by rewrite !get_insert_ne, get_insert_eq by done.
  - by rewrite get_insert_eq.
  - by rewrite !get_insert_ne by done.
  - unfold valid_settings.
    rewrite !(get_insert_ne _ "autoStart") by done.
    rewrite get_insert_eq.
    rewrite !(get_insert_ne _ "goalSessions") by done.
    rewrite get_insert_eq.
    rewrite !(get_insert_ne _ "longMin") by done.
    rewrite get_insert_eq.
    rewrite !(get_insert_ne _ "shortMin") by done.
    rewrite get_insert_eq.
    repeat (apply andb_true_intro; split).
    + exact (Hw 1%Z 120%Z _ _ Hf Wf (Qle_refl 1)).
    + exact (Hw 1%Z 60%Z _ _ Hs Ws (Qle_refl 1)).
    + exact (Hw 1%Z 90%Z _ _ Hl Wl (Qle_refl 1)).
    + exact (Hw 1%Z 30%Z _ _ Hg Wg (Qle_refl 1)).
Qed.

Lemma settings_dialog_round_trip_witness :
  ∃ f, syncSettingsUI (init (initial ∅)) = Some f
       ∧ same_number
           (get (settings (state (applySettingsFromUI f (init (initial ∅))))) "focusMin")
           (get (settings (state (init (initial ∅)))) "focusMin").
Proof.
  assert (whole_settings (settings (state (init (initial ∅)))) = true) as H
    by (vm_compute; reflexivity).
  destruct (settings_dialog_round_trip (init (initial ∅)) H) as (f & E & Hf & _).
  exists f. split; [exact E|exact Hf].
Defined.

(** ** The interval and the running flag *)

Lemma tick_ticking (c : TickEnv) (a : App) :
  ticking (state a) = true → ticking (state (after (tick c a))) = true.
Proof.
  intros T. destruct (completes c a) eqn:C.
  - destruct (startedISO c a) as [started|] eqn:S.
    + rewrite (tick_completes_state c a started C S).
      pose proof (completes_running c a C) as R. unfold ticking in *.
      rewrite R in T. cbn [running interval].
      destruct (ToBoolean _); [exact T|reflexivity].
    + by rewrite (tick_throws c a C S).
  - destruct (running (state a)) eqn:R.
    + by rewrite (tick_counts c a R C).
    + by rewrite (tick_paused c a R).
Qed.

Lemma handle_ticking (e : Event) (a : App) :
  ticking (state a) = true → ticking (state (handle e a)) = true.
Proof.
  intros T. destruct e as [date| |m|c|f| |[|]]; cbn [handle].
  - destruct (running (state a)) eqn:R.
    + by rewrite pause_state.
    + rewrite (start_state date a R). reflexivity.
  - by rewrite resetTimer_state.
  - destruct (running (state a)) eqn:R.
    + by rewrite (setMode_running m a R).
    + by rewrite (setMode_paused m a R), resetTimer_state.
  - by apply tick_ticking.
  - destruct (running (state a)) eqn:R.
    + by rewrite (applySettings_running f a R).
    + by rewrite (applySettings_paused f a R).
  - by destruct (toggleTheme_state a) as [t ->].
  - by rewrite resetTimer_state.
  - done.
Qed.

Lemma run_ticking (es : list Event) (a : App) :
  ticking (state a) = true → ticking (state (run es a)) = true.
Proof.
  revert a. induction es as [|e es IH]; intros a H; [done|].
  rewrite run_cons. by apply IH, handle_ticking.
Qed.

(** X21.  From the start of the page and over any run of events, the
    state holds an interval handle exactly when the timer runs, and the
    browser has that interval scheduled and no other: [tick] is called
    while the timer runs, by one interval, and is not called while it is
    paused. *)
Theorem interval_iff_running (ls : gmap string text) (es : list Event) :
  let a := run es (init (initial ls)) in
  (running (state a) = true ↔ is_Some (interval (state a)))
  ∧ (running (state a) = true → ∃ h, interval (state a) = Some h
                                      ∧ intervals (browser a) = {[ h ]})
  ∧ (running (state a) = false → intervals (browser a) = ∅).
Proof.
  intros a.
  assert (one_schedule a) as O.
  { apply run_one_schedule. unfold init.
    assert (one_schedule (initial ls)) as O0 by reflexivity.
    assert (∀ b, one_schedule b → one_schedule (resetTimer true b)) as Hr.
    { intros b Hb. exact (handle_one_schedule ClickReset b Hb). }
    apply Hr. exact (handle_one_schedule (ClickTab focus) _ O0). }
  assert (ticking (state a) = true) as T.
  { apply run_ticking. unfold init. by rewrite resetTimer_state. }
  unfold ticking in T. unfold one_schedule in O.
  destruct (running (state a)), (interval (state a)) as [h|]; try discriminate T.
  - split_and!; [by split; eauto|eauto|done].
  - split_and!; [|done|done].
    split; [intros ?; discriminate|intros [x Hx]; discriminate].
Qed.
